(** * paperium-articles: the article renderer (app.py)

    A shallow embedding of [app.py]: the two string helpers
    ([create_slug], [extract_first_author]), the upstream client
    ([fetch_articles], [fetch_article_by_id]), the two request handlers
    ([serve_article_list], [serve_article_detail]) and the module-level
    start-up check, followed by the properties of the specification.

    Python values are the values [response.json()] can produce; a Python
    [str] is a list of code points; a [dict] is an insertion-ordered
    association list; exceptions are results of a small trace-and-error
    monad whose trace records the outbound calls, the log lines and the
    calls of the two helpers. *)

From Stdlib Require Import List ZArith NArith Bool String Ascii Lia.
From Stdlib Require Import SpecFloat.
Import ListNotations.

Set Warnings "-register-all".

(* ================================================================== *)
(** * The Python side: strings, values, exceptions *)

Module Py.

(** A [str] is a sequence of Unicode code points. *)
Definition str := list N.

(** A literal of the source, written as an ASCII string. *)
Definition py (s : string) : str := map N_of_ascii (list_ascii_of_string s).

Definition str_eqb (a b : str) : bool :=
  if list_eq_dec N.eq_dec a b then true else false.

(** [str.isspace] on one code point: the characters [str.strip()]
    removes when called without an argument. *)
Definition isspace (c : N) : bool :=
  ((9 <=? c) && (c <=? 13) || (28 <=? c) && (c <=? 32)
   || (c =? 133) || (c =? 160) || (c =? 5760)
   || (8192 <=? c) && (c <=? 8202)
   || (c =? 8232) || (c =? 8233) || (c =? 8239) || (c =? 8287)
   || (c =? 12288))%N.

(** [s.lstrip()], [s.rstrip()] and [s.strip()], over the set of
    characters [p]. *)
Fixpoint lstrip_by (p : N -> bool) (s : str) : str :=
  match s with
  | [] => []
  | c :: r => if p c then lstrip_by p r else s
  end.

Fixpoint rstrip_by (p : N -> bool) (s : str) : str :=
  match s with
  | [] => []
  | c :: r =>
      match rstrip_by p r with
      | [] => if p c then [] else [c]
      | r' => c :: r'
      end
  end.

Definition strip_by (p : N -> bool) (s : str) : str :=
  rstrip_by p (lstrip_by p s).

Definition strip (s : str) : str := strip_by isspace s.

(** The first, and the last, character of [s] is one of [p]. *)
Definition starts_with (p : N -> bool) (s : str) : bool :=
  match s with
  | [] => false
  | c :: _ => p c
  end.

Fixpoint ends_with (p : N -> bool) (s : str) : bool :=
  match s with
  | [] => false
  | c :: r => match r with [] => p c | _ => ends_with p r end
  end.

(** [s.split(sep, maxsplit=1)] for a one-character separator: the
    text before the first separator and, when there is one, the text
    after it. *)
Fixpoint partition1 (sep : N) (s : str) : str * option str :=
  match s with
  | [] => ([], None)
  | c :: r =>
      if (c =? sep)%N then ([], Some r)
      else let (h, t) := partition1 sep r in (c :: h, t)
  end.

Definition split1 (sep : N) (s : str) : list str :=
  match partition1 sep s with
  | (h, None) => [h]
  | (h, Some t) => [h; t]
  end.

(** The values of a parsed JSON body. *)
Inductive value : Type :=
| VNone
| VBool (b : bool)
| VInt (z : Z)
| VFloat (f : spec_float)
| VStr (s : str)
| VList (l : list value)
| VDict (d : list (str * value)).

Definition dict := list (str * value).

(** Truth value of an object, as [if x:] and [not x] test it. *)
Definition truthy (v : value) : bool :=
  match v with
  | VNone => false
  | VBool b => b
  | VInt z => negb (z =? 0)%Z
  | VFloat (S754_zero _) => false
  | VFloat _ => true
  | VStr s => match s with [] => false | _ => true end
  | VList l => match l with [] => false | _ => true end
  | VDict d => match d with [] => false | _ => true end
  end.

Definition is_none (v : value) : bool :=
  match v with VNone => true | _ => false end.

(** [d[k]] lookup and [d[k] = v] on an insertion-ordered dict: an
    existing key keeps its place, a new key goes last. *)
Fixpoint dict_get (d : dict) (k : str) : option value :=
  match d with
  | [] => None
  | (k', v) :: r => if str_eqb k' k then Some v else dict_get r k
  end.

Fixpoint dict_set (d : dict) (k : str) (v : value) : dict :=
  match d with
  | [] => [(k, v)]
  | (k', v') :: r =>
      if str_eqb k' k then (k, v) :: r else (k', v') :: dict_set r k v
  end.

Inductive exn : Type :=
| TypeError
| AttributeError
| IndexError
| KeyError (key : str)
| ValueError (msg : str)
| UnboundLocalError (name : str)
| TransportError
| JSONDecodeError
| HTTPStatusError (status_code : Z) (text : str)
| HTTPException (status_code : Z) (detail : str).

Inductive outcome (A : Type) : Type :=
| Ok (a : A)
| Raise (e : exn).
Arguments Ok {A} a.
Arguments Raise {A} e.

End Py.
Import Py.

(* ================================================================== *)
(** * Effects: the trace of a request *)

(** What [print] is given by the upstream client. *)
Inductive log_line : Type :=
| ApiError (status_code : Z) (text : str)
| RequestFailed (e : exn)
| ApiHttpError (status_code : Z) (article_id : Z)
| RequestFailedUnexpectedly (article_id : Z) (e : exn).

Record http_request : Type := mk_request {
  url : str;
  params : dict;
  headers : list (str * str)
}.

Inductive event : Type :=
| EvGet (rq : http_request)
| EvPrint (l : log_line)
| EvCreateSlug (title : value)
| EvExtractFirstAuthor (author_string : value).

(** A computation: the events it caused, in order, and how it ended. *)
Definition M (A : Type) : Type := (list event * outcome A)%type.

Definition ret {A} (a : A) : M A := ([], Ok a).
Definition raise {A} (e : exn) : M A := ([], Raise e).
Definition emit (ev : event) : M unit := ([ev], Ok tt).

Definition bind {A B} (m : M A) (k : A -> M B) : M B :=
  match m with
  | (t, Ok a) => let (t', r) := k a in (t ++ t', r)
  | (t, Raise e) => (t, Raise e)
  end.

(** [try: m except ...: h e] *)
Definition try_except {A} (m : M A) (h : exn -> M A) : M A :=
  match m with
  | (t, Ok a) => (t, Ok a)
  | (t, Raise e) => let (t', r) := h e in (t ++ t', r)
  end.

Declare Scope py_scope.
Delimit Scope py_scope with py.
Notation "x <- m ;; k" := (bind m (fun x => k))
  (at level 61, m at next level, right associativity) : py_scope.
Notation "m ;;; k" := (bind m (fun _ => k))
  (at level 61, right associativity) : py_scope.
Open Scope py_scope.

Definition trace {A} (m : M A) : list event := fst m.
Definition result {A} (m : M A) : outcome A := snd m.

(** A call of one of the two helpers, recorded in the trace. *)
Definition call (ev : value -> event) (f : value -> M value) (v : value)
  : M value :=
  emit (ev v) ;;; f v.

(** ** Operations on values that can raise *)

(** [v.get(k, default)] *)
Definition method_get (v : value) (k : str) (default : value) : M value :=
  match v with
  | VDict d => ret (match dict_get d k with Some x => x | None => default end)
  | _ => raise AttributeError
  end.

(** [v[k]] for a string key [k] *)
Definition subscript (v : value) (k : str) : M value :=
  match v with
  | VDict d =>
      match dict_get d k with Some x => ret x | None => raise (KeyError k) end
  | _ => raise TypeError
  end.

(** [v[k] = x]; the result is the updated object. *)
Definition setitem (v : value) (k : str) (x : value) : M value :=
  match v with
  | VDict d => ret (VDict (dict_set d k x))
  | _ => raise TypeError
  end.

(** The items [for x in v] visits. *)
Definition iter (v : value) : M (list value) :=
  match v with
  | VList l => ret l
  | VDict d => ret (map (fun kv => VStr (fst kv)) d)
  | VStr s => ret (map (fun c => VStr [c]) s)
  | _ => raise TypeError
  end.

(** [l[0]] *)
Definition index0 (l : list str) : M str :=
  match l with
  | x :: _ => ret x
  | [] => raise IndexError
  end.

(* ================================================================== *)
(** * The slugify package *)

Module Slugify.

(** Modelled from the spec: the package that provides [slugify] is
    imported by app.py and is not part of the source tree.  This module
    holds the model of its [slugify] function and the stages the model
    is made of. *)
Definition dash : N := 45%N.

Definition is_dash (c : N) : bool := (c =? dash)%N.
Definition is_upper (c : N) : bool := ((65 <=? c) && (c <=? 90))%N.
Definition is_lower (c : N) : bool := ((97 <=? c) && (c <=? 122))%N.
Definition is_digit (c : N) : bool := ((48 <=? c) && (c <=? 57))%N.

(** The characters the final pattern leaves alone: [-a-zA-Z0-9]. *)
Definition allowed (c : N) : bool :=
  is_dash c || is_lower c || is_upper c || is_digit c.

Definition lower_char (c : N) : N := if is_upper c then (c + 32)%N else c.

Definition lower (s : str) : str := map lower_char s.

(** Every maximal run of characters outside [allowed] becomes one
    hyphen; [in_run] says the previous character was in such a run. *)
Fixpoint sub_disallowed (in_run : bool) (s : str) : str :=
  match s with
  | [] => []
  | c :: r =>
      if allowed c then c :: sub_disallowed false r
      else if in_run then sub_disallowed true r
      else dash :: sub_disallowed true r
  end.

(** Every run of two or more hyphens becomes one hyphen; [prev] says
    the previous character was a hyphen. *)
Fixpoint collapse_dashes (prev : bool) (s : str) : str :=
  match s with
  | [] => []
  | c :: r =>
      if is_dash c
      then if prev then collapse_dashes true r
           else c :: collapse_dashes true r
      else c :: collapse_dashes false r
  end.

(** Modelled from the spec: the [slugify] function of the package
    app.py imports, which is not part of the source tree.  Section 4.1
    and the glossary describe its result as the lowercased,
    hyphen-separated, punctuation-stripped form of the text; the
    docstring of [create_slug] gives "the-c-api-python-renderer" for
    "The C# API & Python Renderer!".  The model lowercases the ASCII
    letters, turns every run of other characters into one hyphen, and
    removes repeated, leading and trailing hyphens.  The package's
    transliteration of non-ASCII letters and its decoding of character
    references happen before these steps and are not modelled. *)
Definition slugify_text (text : str) : str :=
  strip_by is_dash (collapse_dashes false (sub_disallowed false (lower text))).

(** Modelled from the spec: [slugify(text)] as app.py calls it, with the
    package's defaults.  Section 4.1 takes the input to be text; the
    package raises [TypeError] for any other argument that reaches it. *)
Definition slugify (text : value) : M value :=
  match text with
  | VStr s => ret (VStr (slugify_text s))
  | _ => raise TypeError
  end.

(** A slug: lowercase letters, digits and single hyphens between
    them. *)
Definition slug_char (c : N) : bool := is_dash c || is_lower c || is_digit c.

Fixpoint no_double_dash (prev : bool) (s : str) : bool :=
  match s with
  | [] => true
  | c :: r =>
      if is_dash c then negb prev && no_double_dash true r
      else no_double_dash false r
  end.

Definition is_slug (s : str) : bool :=
  forallb slug_char s && no_double_dash true s && negb (ends_with is_dash s).

End Slugify.

(* ================================================================== *)
(** * app.py *)

Definition PAGE_SIZE : Z := 50.

(** [create_slug(title)] *)
Definition create_slug (title : value) : M value :=
  if negb (truthy title) then ret (VStr [])
  else Slugify.slugify title.

(** [extract_first_author(author_string)] *)
Definition extract_first_author (author_string : value) : M value :=
  if negb (truthy author_string) then ret (VStr [])
  else
    match author_string with
    | VStr s =>
        first <- index0 (split1 44%N s) ;;   (* 44 is ',' *)
        let first_author := strip first in
        ret (VStr first_author)
    | _ => raise AttributeError
    end.


(** ** Configuration: the module-level globals *)

Definition environ := list (str * str).

(** [os.environ.get(k)] *)
Fixpoint environ_get (env : environ) (k : str) : option str :=
  match env with
  | [] => None
  | (k', v) :: r => if str_eqb k' k then Some v else environ_get r k
  end.

Definition opt_value (o : option str) : value :=
  match o with
  | Some s => VStr s
  | None => VNone
  end.

(** The globals once the module has been imported: [API_KEY] is then a
    [str]. *)
Record Config : Type := mk_config {
  API_BASE_URL : option str;
  API_KEY : str
}.

(** Lines 11-15: read the two variables, refuse to load without a key. *)
Definition startup (env : environ) : M Config :=
  let api_base_url := environ_get env (py "API_BASE_URL") in
  let api_key := environ_get env (py "API_KEY") in
  if negb (truthy (opt_value api_key))
  then raise (ValueError (py "C_SHARP_API_KEY environment variable not set!"))
  else
    match api_key with
    | Some k => ret (mk_config api_base_url k)
    | None => raise (ValueError (py "C_SHARP_API_KEY environment variable not set!"))
    end.

(** ** The upstream client *)

(** What the upstream does with one request: no reply at all (a
    transport failure), or a status code, the body text and the body
    parsed as JSON when it parses. *)
Inductive reply : Type :=
| NoReply
| Reply (status_code : Z) (text : str) (json : option value).

Definition upstream := http_request -> reply.

Record Response : Type := mk_response {
  resp_status_code : Z;
  resp_text : str;
  resp_json : option value
}.

(** [API_BASE_URL + path] *)
Definition add_str (base : option str) (path : str) : M str :=
  match base with
  | Some b => ret (b ++ path)
  | None => raise TypeError
  end.

(** [await client.get(url, params=..., headers=...)] *)
Definition client_get (net : upstream) (rq : http_request) : M Response :=
  emit (EvGet rq) ;;;
  match net rq with
  | NoReply => raise TransportError
  | Reply c t j => ret (mk_response c t j)
  end.

Definition is_success (c : Z) : bool := ((200 <=? c) && (c <=? 299))%Z.

(** [response.raise_for_status()] *)
Definition raise_for_status (r : Response) : M unit :=
  if is_success (resp_status_code r) then ret tt
  else raise (HTTPStatusError (resp_status_code r) (resp_text r)).

(** [response.json()] *)
Definition response_json (r : Response) : M value :=
  match resp_json r with
  | Some v => ret v
  | None => raise JSONDecodeError
  end.

(** [fetch_articles(page, search)] *)
Definition fetch_articles (cfg : Config) (net : upstream)
    (page : Z) (search : option str) : M value :=
  try_except
    (let params := [(py "page", VInt page)] in
     let params :=
       if truthy (opt_value search)
       then dict_set params (py "search") (opt_value search)
       else params in
     u <- add_str (API_BASE_URL cfg) (py "/GetArticles") ;;
     response <- client_get net
       (mk_request u params [(py "X-Renderer-Key", API_KEY cfg)]) ;;
     raise_for_status response ;;;
     response_json response)
    (fun e =>
       match e with
       | HTTPStatusError c t => emit (EvPrint (ApiError c t)) ;;; ret VNone
       | _ => emit (EvPrint (RequestFailed e)) ;;; ret VNone
       end).

(** [fetch_article_by_id(article_id)] *)
Definition fetch_article_by_id (cfg : Config) (net : upstream)
    (article_id : Z) : M value :=
  try_except
    (article_url <- add_str (API_BASE_URL cfg) (py "/GetArticleByID") ;;
     let params := [(py "id", VInt article_id)] in
     response <- client_get net
       (mk_request article_url params [(py "X-Renderer-Key", API_KEY cfg)]) ;;
     raise_for_status response ;;;
     response_json response)
    (fun e =>
       match e with
       | HTTPStatusError c _ =>
           emit (EvPrint (ApiHttpError c article_id)) ;;; ret VNone
       | _ =>
           emit (EvPrint (RequestFailedUnexpectedly article_id e)) ;;; ret VNone
       end).

(** ** Routing and rendering *)

Record Request : Type := mk_http_request { path : str }.

Inductive ctx_value : Type :=
| CtxRequest (r : Request)
| CtxValue (v : value).

(** [templates.TemplateResponse(name, context, status_code=200)] *)
Record TemplateResponse : Type := mk_template_response {
  name : str;
  context : list (str * ctx_value);
  status_code : Z
}.

Definition locals := (option value * option value)%type.

(** The body of [for article in data['data']]: the records as the loop
    leaves them, and the two locals it assigns.  A parsed body is a tree,
    so a record is no part of [data]'s other fields and the mutation of a
    record leaves [data['totalPages']] and [data['currentPage']] as they
    were. *)
Fixpoint enrich (data : value) (articles : list value) (vars : locals)
  : M (list value * locals) :=
  match articles with
  | [] => ret ([], vars)
  | article :: rest =>
      title <- method_get article (py "title") (VStr []) ;;
      slug <- call EvCreateSlug create_slug title ;;
      article <- setitem article (py "slug") slug ;;
      full_author_name <- method_get article (py "author") (VStr []) ;;
      short <- call EvExtractFirstAuthor extract_first_author full_author_name ;;
      article <- setitem article (py "shortAuthorName") short ;;
      total_pages <- subscript data (py "totalPages") ;;
      current_page <- subscript data (py "currentPage") ;;
      r <- enrich data rest (Some total_pages, Some current_page) ;;
      ret (article :: fst r, snd r)
  end.

(** A local variable read after the loop. *)
Definition local (name : str) (v : option value) : M value :=
  match v with
  | Some x => ret x
  | None => raise (UnboundLocalError name)
  end.

(** [serve_article_list(request, page, search)] *)
Definition serve_article_list (cfg : Config) (net : upstream)
    (request : Request) (page : Z) (search : option str)
  : M TemplateResponse :=
  data <- fetch_articles cfg net page search ;;
  unavailable <-
    (if is_none data then ret true
     else records <- method_get data (py "data") VNone ;;
          ret (negb (truthy records))) ;;
  if (unavailable : bool) then
    ret (mk_template_response (py "error.html")
           [(py "request", CtxRequest request);
            (py "message", CtxValue (VStr (py "Could not load article data.")))]
           500)
  else
    records <- subscript data (py "data") ;;
    items <- iter records ;;
    r <- enrich data items (None, None) ;;
    (* data['data'] after the loop: the list, its records updated in place *)
    let articles :=
      match records with
      | VList _ => VList (fst r)
      | _ => records
      end in
    current_page <- local (py "current_page") (snd (snd r)) ;;
    total_pages <- local (py "total_pages") (fst (snd r)) ;;
    let context :=
      [(py "request", CtxRequest request);
       (py "articles", CtxValue articles);
       (py "current_page", CtxValue current_page);
       (py "total_pages", CtxValue total_pages);
       (py "page_size", CtxValue (VInt PAGE_SIZE));
       (py "search_term", CtxValue (opt_value search))] in
    ret (mk_template_response (py "articles_template.html") context 200).

(** [slug != expected_slug], for the [str] of the path. *)
Definition str_ne (slug : str) (v : value) : bool :=
  match v with
  | VStr s => negb (str_eqb slug s)
  | _ => true
  end.

(** [serve_article_detail(request, article_id, slug)] *)
Definition serve_article_detail (cfg : Config) (net : upstream)
    (request : Request) (article_id : Z) (slug : str)
  : M TemplateResponse :=
  article <- fetch_article_by_id cfg net article_id ;;
  article <- subscript article (py "D") ;;
  if is_none article then
    raise (HTTPException 404 (py "Article not found or API call failed"))
  else
    title <- method_get article (py "Title") (VStr []) ;;
    expected_slug <- call EvCreateSlug create_slug title ;;
    (if str_ne slug expected_slug then ret tt else ret tt) ;;;
    authors <- method_get article (py "Authors") (VStr []) ;;
    short_author <- call EvExtractFirstAuthor extract_first_author authors ;;
    let context :=
      [(py "request", CtxRequest request);
       (py "article", CtxValue article);
       (py "short_author", CtxValue short_author)] in
    ret (mk_template_response (py "article_detail.html") context 200).

(** ** The service as a client sees it *)

Inductive route : Type :=
| GetArticles (page : Z) (search : option str)
| GetArticle (article_id : Z) (slug : str).

Definition handle (cfg : Config) (net : upstream) (rq : Request * route)
  : M TemplateResponse :=
  match snd rq with
  | GetArticles page search => serve_article_list cfg net (fst rq) page search
  | GetArticle article_id slug =>
      serve_article_detail cfg net (fst rq) article_id slug
  end.

(** The status line of the answer: the response's own status, the
    status of an [HTTPException], and 500 for any other exception that
    leaves a handler. *)
Definition http_status (m : M TemplateResponse) : Z :=
  match result m with
  | Ok r => status_code r
  | Raise (HTTPException c _) => c
  | Raise _ => 500
  end.

Definition is_redirect (m : M TemplateResponse) : bool :=
  ((300 <=? http_status m) && (http_status m <? 400))%Z.

(** The process: import the module, then answer the requests; nothing is
    answered when the import raises. *)
Definition serve (env : environ) (net : upstream)
    (rqs : list (Request * route)) : M (list (M TemplateResponse)) :=
  cfg <- startup env ;;
  ret (map (handle cfg net) rqs).

(* ================================================================== *)
(** * The words of the specification *)

Definition comma : N := 44%N.

(** [first] is the part of [s] before its first comma, all of [s] when
    it has none. *)
Definition before_first_comma (s first : str) : Prop :=
  ~ In comma first /\ (s = first \/ exists rest, s = first ++ comma :: rest).

(** [r] is [x] with the surrounding whitespace removed. *)
Definition trimmed (x r : str) : Prop :=
  exists l t,
    x = l ++ r ++ t /\
    forallb isspace l = true /\ forallb isspace t = true /\
    starts_with isspace r = false /\ ends_with isspace r = false.

(** A title or author field the helpers accept: text, or a value that
    tests false (absent, null, empty). *)
Definition text_or_falsy (v : value) : bool :=
  match v with
  | VStr _ => true
  | _ => negb (truthy v)
  end.

(** [d.get(k, '')] *)
Definition field (d : dict) (k : str) : value :=
  match dict_get d k with
  | Some x => x
  | None => VStr []
  end.

(** A record of the upstream list contract. *)
Definition wf_record (v : value) : bool :=
  match v with
  | VDict d =>
      text_or_falsy (field d (py "title")) && text_or_falsy (field d (py "author"))
  | _ => false
  end.

(** [art] is [rec] after enrichment: the two derived fields are set from
    their source fields and every other key reads as before. *)
Definition enriched_from (rec art : value) : Prop :=
  exists dr da slug short,
    rec = VDict dr /\ art = VDict da /\
    create_slug (field dr (py "title")) = ret slug /\
    extract_first_author (field dr (py "author")) = ret short /\
    dict_get da (py "slug") = Some slug /\
    dict_get da (py "shortAuthorName") = Some short /\
    (forall k, k <> py "slug" -> k <> py "shortAuthorName" ->
               dict_get da k = dict_get dr k).

(** A call of [create_slug] or of [extract_first_author]. *)
Definition enrichment_event (ev : event) : bool :=
  match ev with
  | EvCreateSlug _ | EvExtractFirstAuthor _ => true
  | _ => false
  end.

(** The error view of the list handler. *)
Definition error_view (request : Request) : TemplateResponse :=
  mk_template_response (py "error.html")
    [(py "request", CtxRequest request);
     (py "message", CtxValue (VStr (py "Could not load article data.")))]
    500.

(** [data.get("data")]: the record collection, [None] when the key is
    missing. *)
Definition records_of (d : dict) : value :=
  match dict_get d (py "data") with
  | Some v => v
  | None => VNone
  end.

(** The context of the list view. *)
Definition list_context (request : Request) (search : option str)
    (arts : list value) (cp tp : value) : list (str * ctx_value) :=
  [(py "request", CtxRequest request);
   (py "articles", CtxValue (VList arts));
   (py "current_page", CtxValue cp);
   (py "total_pages", CtxValue tp);
   (py "page_size", CtxValue (VInt PAGE_SIZE));
   (py "search_term", CtxValue (opt_value search))].

(** The context of the detail view. *)
Definition detail_context (request : Request) (article short_author : value)
  : list (str * ctx_value) :=
  [(py "request", CtxRequest request);
   (py "article", CtxValue article);
   (py "short_author", CtxValue short_author)].

(** What the two operations of the client owe their callers, for the
    request [rq] they send to [net]: the request is the first thing that
    happens; no reply, a status outside 200..299 or a body that does not
    parse give [None]; a status within 200..299 gives the parsed body. *)
Definition absent_on_failure (net : upstream) (m : M value) (rq : http_request)
  : Prop :=
  hd_error (trace m) = Some (EvGet rq) /\
  (net rq = NoReply -> result m = Ok VNone) /\
  (forall c t j, net rq = Reply c t j -> ~ (200 <= c <= 299)%Z ->
                 result m = Ok VNone) /\
  (forall c t v, net rq = Reply c t (Some v) -> (200 <= c <= 299)%Z ->
                 result m = Ok v) /\
  (forall c t, net rq = Reply c t None -> result m = Ok VNone).

(** A record that carries both derived fields, neither of them null. *)
Definition carries_derived_fields (a : value) : Prop :=
  exists da slug short,
    a = VDict da /\
    dict_get da (py "slug") = Some (VStr slug) /\
    dict_get da (py "shortAuthorName") = Some (VStr short).

(** ** Measures on traces and outcomes *)

Definition is_get (ev : event) : bool :=
  match ev with
  | EvGet _ => true
  | _ => false
  end.

Definition is_print (ev : event) : bool :=
  match ev with
  | EvPrint _ => true
  | _ => false
  end.

(** How many events of a trace are of the kind [p]. *)
Definition count (p : event -> bool) (t : list event) : nat :=
  List.length (filter p t).

Definition is_http_exception (e : exn) : bool :=
  match e with
  | HTTPException _ _ => true
  | _ => false
  end.

(** A computation that, when it raises, raises something other than an
    [HTTPException]. *)
Definition safe {A} (m : M A) : Prop :=
  match result m with
  | Raise e => is_http_exception e = false
  | Ok _ => True
  end.

(** A computation whose events are all calls of the two helpers. *)
Definition quiet {A} (m : M A) : Prop :=
  forallb enrichment_event (trace m) = true.

(** The helper calls the loop makes for one record. *)
Definition enrichment_calls (rec : value) : list event :=
  match rec with
  | VDict d =>
      [EvCreateSlug (field d (py "title"));
       EvExtractFirstAuthor (field d (py "author"))]
  | _ => []
  end.

(** An author field on which [extract_first_author] fails: an object
    that tests true and is not text. *)
Definition truthy_non_text (v : value) : bool :=
  match v with
  | VStr _ => false
  | _ => truthy v
  end.

(** The query of [fetch_articles]: [search] is sent when it is a
    non-empty string. *)
Definition sent_search (search : option str) : option value :=
  match search with
  | Some (c :: s) => Some (VStr (c :: s))
  | _ => None
  end.

(** An operation of the client that ends without raising, after at most
    one request, and that has logged nothing, or one line and then
    returns [None]. *)
Definition logged_outcome (m : M value) : Prop :=
  exists v,
    result m = Ok v /\
    (count is_get (trace m) <= 1)%nat /\
    (count is_print (trace m) = 0%nat \/
     count is_print (trace m) = 1%nat /\ v = VNone).

(** A handler whose response, when it gives one, has a status among
    [ok_status], and that raises no [HTTPException]. *)
Definition answers (ok_status : Z -> bool) (m : M TemplateResponse) : Prop :=
  match result m with
  | Ok r => ok_status (status_code r) = true
  | Raise e => is_http_exception e = false
  end.

Definition not_found : exn :=
  HTTPException 404 (py "Article not found or API call failed").

Definition is_dict (v : value) : bool :=
  match v with
  | VDict _ => true
  | _ => false
  end.



(** Both derived fields of [art] are empty where the source field of
    [rec] tests false (missing, null, empty). *)
Definition defaults_to_empty (rec art : value) : Prop :=
  forall dr, rec = VDict dr ->
    exists da, art = VDict da /\
      (truthy (field dr (py "title")) = false ->
       dict_get da (py "slug") = Some (VStr [])) /\
      (truthy (field dr (py "author")) = false ->
       dict_get da (py "shortAuthorName") = Some (VStr [])).

(** ** Sample configurations, upstreams and requests *)

Module Examples.

Definition cfg : Config := mk_config (Some (py "https://api.example")) (py "secret").

Definition rq : Request := mk_http_request (py "/").

Definition article42 : value :=
  VDict [(py "Title", VStr (py "Hello, World!"));
         (py "Authors", VStr (py "Smith, Jones"))].

Definition envelope42 : value := VDict [(py "D", article42)].

Definition net_detail : upstream := fun _ => Reply 200 [] (Some envelope42).

Definition net_down : upstream := fun _ => NoReply.

Definition net_500 : upstream := fun _ => Reply 500 (py "oops") None.

Definition empty_page : value :=
  VDict [(py "data", VList []);
         (py "currentPage", VInt 1);
         (py "totalPages", VInt 0)].

Definition net_empty : upstream := fun _ => Reply 200 [] (Some empty_page).

Definition record7 : value :=
  VDict [(py "id", VInt 7);
         (py "title", VStr (py "Hello, World!"));
         (py "author", VStr (py "  Smith , Jones"))].

Definition one_page : value :=
  VDict [(py "data", VList [record7]);
         (py "currentPage", VInt 1);
         (py "totalPages", VInt 3)].

Definition net_list : upstream := fun _ => Reply 200 [] (Some one_page).

Definition record7_enriched : value :=
  VDict [(py "id", VInt 7);
         (py "title", VStr (py "Hello, World!"));
         (py "author", VStr (py "  Smith , Jones"));
         (py "slug", VStr (py "hello-world"));
         (py "shortAuthorName", VStr (py "Smith"))].

Definition list_view : TemplateResponse :=
  mk_template_response (py "articles_template.html")
    (list_context rq None [record7_enriched] (VInt 1) (VInt 3)) 200.

Definition env_ok : environ :=
  [(py "API_BASE_URL", py "https://api.example"); (py "API_KEY", py "secret")].

Definition env_no_base : environ := [(py "API_KEY", py "secret")].

Definition env_no_key : environ := [(py "API_BASE_URL", py "https://api.example")].

Definition env_empty_key : environ :=
  [(py "API_BASE_URL", py "https://api.example"); (py "API_KEY", [])].

End Examples.

(* ================================================================== *)
(** * Strings: splitting and trimming *)

Section Strip.

Variable p : N -> bool.

Lemma lstrip_by_split (s : str) :
  exists l, s = l ++ lstrip_by p s /\ forallb p l = true.
Proof.
  induction s as [|c r [l [E F]]]; simpl.
  - exists []. split; reflexivity.
  - destruct (p c) eqn:Hc.
    + exists (c :: l). simpl. rewrite Hc, F. split; [f_equal; exact E | reflexivity].
    + exists []. split; reflexivity.
Qed.

Lemma lstrip_by_starts (s : str) : starts_with p (lstrip_by p s) = false.
Proof.
  induction s as [|c r IH]; simpl; [reflexivity|].
  destruct (p c) eqn:Hc; [exact IH | simpl; exact Hc].
Qed.

Lemma lstrip_by_id (s : str) : starts_with p s = false -> lstrip_by p s = s.
Proof.
  destruct s as [|c r]; simpl; [reflexivity|]. intros ->. reflexivity.
Qed.

Lemma rstrip_by_split (s : str) :
  exists t, s = rstrip_by p s ++ t /\ forallb p t = true.
Proof.
  induction s as [|c r [t [E F]]]; simpl.
  - exists []. split; reflexivity.
  - destruct (rstrip_by p r) as [|c' r'] eqn:Hr.
    + destruct (p c) eqn:Hc.
      * exists (c :: t). simpl in *. rewrite Hc, F. subst r. split; reflexivity.
      * exists t. simpl in *. subst r. split; [reflexivity | exact F].
    + exists t. split; [simpl; f_equal; exact E | exact F].
Qed.

Lemma rstrip_by_ends (s : str) : ends_with p (rstrip_by p s) = false.
Proof.
  induction s as [|c r IH]; simpl; [reflexivity|].
  destruct (rstrip_by p r) as [|c' r'] eqn:Hr.
  - destruct (p c) eqn:Hc; simpl; [reflexivity | exact Hc].
  - exact IH.
Qed.

Lemma rstrip_by_starts (s : str) :
  starts_with p s = false -> starts_with p (rstrip_by p s) = false.
Proof.
  destruct s as [|c r]; simpl; [reflexivity|]. intros Hc.
  destruct (rstrip_by p r); [rewrite Hc|]; simpl; exact Hc.
Qed.

Lemma rstrip_by_id (s : str) : ends_with p s = false -> rstrip_by p s = s.
Proof.
  induction s as [|c r IH]; simpl; [reflexivity|].
  destruct r as [|c' r'].
  - intros ->. reflexivity.
  - intros H. rewrite (IH H). reflexivity.
Qed.

Lemma strip_by_id (s : str) :
  starts_with p s = false -> ends_with p s = false -> strip_by p s = s.
Proof.
  intros Hs He. unfold strip_by. rewrite (lstrip_by_id _ Hs). apply rstrip_by_id, He.
Qed.

Lemma forallb_ends_with (z : str) :
  forallb p z = true -> z <> [] -> ends_with p z = true.
Proof.
  induction z as [|c r IH]; [contradiction|]. intros F _.
  simpl in F. apply andb_true_iff in F. destruct F as [Hc Hr].
  cbn [ends_with]. destruct r as [|c' r']; [exact Hc|].
  apply IH; [exact Hr | discriminate].
Qed.

Lemma strip_prefix_unique (l l' y y' : str) :
  forallb p l = true -> forallb p l' = true ->
  starts_with p y = false -> starts_with p y' = false ->
  l ++ y = l' ++ y' -> y = y'.
Proof.
  revert l'. induction l as [|c l1 IH]; intros [|c' l1'] Fl Fl' Sy Sy' E;
    simpl in *.
  - exact E.
  - subst y. simpl in Sy. apply andb_true_iff in Fl'. destruct Fl' as [Hc _].
    congruence.
  - subst y'. simpl in Sy'. apply andb_true_iff in Fl. destruct Fl as [Hc _].
    congruence.
  - apply andb_true_iff in Fl. apply andb_true_iff in Fl'.
    injection E as _ E. apply (IH l1'); tauto.
Qed.

Lemma strip_suffix_unique (r : str) :
  forall r' t t',
    r <> [] -> r' <> [] ->
    ends_with p r = false -> ends_with p r' = false ->
    forallb p t = true -> forallb p t' = true ->
    r ++ t = r' ++ t' -> r = r'.
Proof.
  induction r as [|a r1 IH]; intros [|a' r1'] t t' N N' Er Er' Ft Ft' E;
    try contradiction.
  simpl in E. injection E as <- E.
  destruct r1 as [|b r2], r1' as [|b' r2'].
  - reflexivity.
  - exfalso. simpl in E. subst t.
    change (forallb p ((b' :: r2') ++ t') = true) in Ft.
    rewrite forallb_app in Ft. apply andb_true_iff in Ft.
    change (ends_with p (b' :: r2') = false) in Er'.
    rewrite (forallb_ends_with (b' :: r2')) in Er'; [discriminate|tauto|discriminate].
  - exfalso. simpl in E. subst t'.
    change (forallb p ((b :: r2) ++ t) = true) in Ft'.
    rewrite forallb_app in Ft'. apply andb_true_iff in Ft'.
    change (ends_with p (b :: r2) = false) in Er.
    rewrite (forallb_ends_with (b :: r2)) in Er; [discriminate|tauto|discriminate].
  - f_equal. apply (IH (b' :: r2') t t'); try discriminate; assumption.
Qed.

Lemma all_stripped_empty (l r t : str) :
  forallb p (l ++ r ++ t) = true -> starts_with p r = false -> r = [].
Proof.
  intros F S. destruct r as [|a r1]; [reflexivity|].
  rewrite !forallb_app in F. simpl in F, S. rewrite S in F.
  rewrite andb_false_r in F. discriminate.
Qed.

Variable q : N -> bool.

Lemma lstrip_by_forallb (s : str) :
  forallb q s = true -> forallb q (lstrip_by p s) = true.
Proof.
  induction s as [|c r IH]; simpl; [reflexivity|].
  intros H. destruct (p c); [|exact H].
  apply andb_true_iff in H. apply IH, H.
Qed.

Lemma rstrip_by_forallb (s : str) :
  forallb q s = true -> forallb q (rstrip_by p s) = true.
Proof.
  induction s as [|c r IH]; simpl; [reflexivity|].
  intros H. apply andb_true_iff in H. destruct H as [Hc Hr].
  specialize (IH Hr). destruct (rstrip_by p r) as [|c' r'].
  - destruct (p c); simpl; [reflexivity | rewrite Hc; reflexivity].
  - change (q c && forallb q (c' :: r') = true). rewrite Hc. exact IH.
Qed.

End Strip.

Lemma strip_trimmed (x : str) : trimmed x (strip x).
Proof.
  unfold trimmed, strip, strip_by.
  destruct (lstrip_by_split isspace x) as [l [El Fl]].
  destruct (rstrip_by_split isspace (lstrip_by isspace x)) as [t [Et Ft]].
  exists l, t. repeat split.
  - rewrite <- Et. exact El.
  - exact Fl.
  - exact Ft.
  - apply rstrip_by_starts, lstrip_by_starts.
  - apply rstrip_by_ends.
Qed.

Lemma partition1_spec (sep : N) (s : str) :
  ~ In sep (fst (partition1 sep s)) /\
  match snd (partition1 sep s) with
  | None => s = fst (partition1 sep s)
  | Some t => s = fst (partition1 sep s) ++ sep :: t
  end.
Proof.
  induction s as [|c r [Hn Hs]]; simpl.
  - split; [intros [] | reflexivity].
  - destruct (N.eqb_spec c sep) as [->|Hc]; simpl.
    + split; [intros [] | reflexivity].
    + destruct (partition1 sep r) as [h o]; simpl in *. split.
      * intros [E|I]; [exact (Hc E) | exact (Hn I)].
      * destruct o; simpl; f_equal; exact Hs.
Qed.

Lemma split1_head (s : str) :
  exists first tl, split1 comma s = first :: tl /\ before_first_comma s first.
Proof.
  unfold split1, before_first_comma.
  destruct (partition1_spec comma s) as [Hn Hs].
  destruct (partition1 comma s) as [h [t|]]; simpl in *.
  - exists h, [t]. repeat split; [exact Hn | right; exists t; exact Hs].
  - exists h, []. repeat split; [exact Hn | left; exact Hs].
Qed.

Lemma trimmed_unique (x r r' : str) : trimmed x r -> trimmed x r' -> r = r'.
Proof.
  intros (l & t & E & Fl & Ft & Sr & Er) (l' & t' & E' & Fl' & Ft' & Sr' & Er').
  destruct r as [|a r1].
  - symmetry. apply (all_stripped_empty isspace l' r' t'); [|exact Sr'].
    rewrite <- E', E. simpl. rewrite forallb_app, Fl, Ft. reflexivity.
  - destruct r' as [|a' r1'].
    + apply (all_stripped_empty isspace l (a :: r1) t); [|exact Sr].
      rewrite <- E, E'. simpl. rewrite forallb_app, Fl', Ft'. reflexivity.
    + apply (strip_suffix_unique isspace (a :: r1) (a' :: r1') t t');
        try assumption; try discriminate.
      apply (strip_prefix_unique isspace l l'); try assumption.
      rewrite <- E, <- E'. reflexivity.
Qed.

Lemma comma_prefix_unique (f f' rest rest' : str) :
  ~ In comma f -> ~ In comma f' ->
  f ++ comma :: rest = f' ++ comma :: rest' -> f = f'.
Proof.
  revert f'. induction f as [|c f1 IH]; intros [|c' f1'] N N' E; simpl in *.
  - reflexivity.
  - injection E as E _. exfalso. apply N'. left. symmetry. exact E.
  - injection E as E _. exfalso. apply N. left. exact E.
  - injection E as -> E. f_equal. apply (IH f1'); tauto.
Qed.

Lemma before_first_comma_unique (s f f' : str) :
  before_first_comma s f -> before_first_comma s f' -> f = f'.
Proof.
  intros [N [E | [rest E]]] [N' [E' | [rest' E']]].
  - congruence.
  - exfalso. apply N. rewrite <- E, E'. apply in_or_app. right. left. reflexivity.
  - exfalso. apply N'. rewrite <- E', E. apply in_or_app. right. left. reflexivity.
  - apply (comma_prefix_unique f f' rest rest'); congruence.
Qed.

Lemma extract_first_author_text (s : str) :
  exists first,
    before_first_comma s first /\
    extract_first_author (VStr s) = ret (VStr (strip first)).
Proof.
  destruct s as [|c r].
  - exists []. split; [|reflexivity].
    split; [intros [] | left; reflexivity].
  - destruct (split1_head (c :: r)) as [first [tl [E B]]].
    exists first. split; [exact B|].
    unfold extract_first_author. cbn [truthy negb].
    fold comma. rewrite E. reflexivity.
Qed.

(* ================================================================== *)
(** * Slugs *)

Module SlugFacts.
Import Slugify.

Ltac chars :=
  unfold slug_char, allowed, lower_char, is_dash, is_upper, is_lower,
    is_digit, dash in *;
  repeat match goal with
    | |- context [N.leb ?a ?b] => destruct (N.leb_spec a b)
    | |- context [N.eqb ?a ?b] => destruct (N.eqb_spec a b)
    | H : context [N.leb ?a ?b] |- _ => destruct (N.leb_spec a b)
    | H : context [N.eqb ?a ?b] |- _ => destruct (N.eqb_spec a b)
    end;
  simpl in *; try reflexivity; try discriminate; try lia.

Lemma slug_char_lower (c : N) : slug_char c = true -> lower_char c = c.
Proof. chars. Qed.

Lemma slug_char_allowed (c : N) : slug_char c = true -> allowed c = true.
Proof. chars. Qed.

Lemma allowed_lower_slug (c : N) :
  allowed (lower_char c) = true -> slug_char (lower_char c) = true.
Proof. chars. Qed.

Lemma slug_char_dash : slug_char dash = true.
Proof. reflexivity. Qed.

(** ** A slug goes through every stage unchanged *)

Lemma lower_slug (s : str) : forallb slug_char s = true -> lower s = s.
Proof.
  induction s as [|c r IH]; simpl; [reflexivity|].
  intros H. apply andb_true_iff in H. destruct H as [Hc Hr].
  rewrite (slug_char_lower _ Hc), (IH Hr). reflexivity.
Qed.

Lemma sub_disallowed_slug (b : bool) (s : str) :
  forallb slug_char s = true -> sub_disallowed b s = s.
Proof.
  revert b. induction s as [|c r IH]; simpl; intros b H; [reflexivity|].
  apply andb_true_iff in H. destruct H as [Hc Hr].
  rewrite (slug_char_allowed _ Hc), (IH false Hr). reflexivity.
Qed.

Lemma collapse_dashes_slug (b : bool) (s : str) :
  no_double_dash b s = true -> collapse_dashes b s = s.
Proof.
  revert b. induction s as [|c r IH]; simpl; intros b H; [reflexivity|].
  destruct (is_dash c).
  - apply andb_true_iff in H. destruct H as [Hb Hr].
    destruct b; [discriminate|]. rewrite (IH true Hr). reflexivity.
  - rewrite (IH false H). reflexivity.
Qed.

Lemma no_double_dash_weaken (b : bool) (s : str) :
  no_double_dash true s = true -> no_double_dash b s = true.
Proof.
  destruct s as [|c r]; simpl; [reflexivity|].
  destruct (is_dash c); [discriminate | auto].
Qed.

Lemma no_double_dash_starts (s : str) :
  no_double_dash true s = true -> starts_with is_dash s = false.
Proof.
  destruct s as [|c r]; simpl; [reflexivity|].
  destruct (is_dash c); [discriminate | reflexivity].
Qed.

Lemma slugify_text_slug (s : str) : is_slug s = true -> slugify_text s = s.
Proof.
  unfold is_slug, slugify_text. intros H.
  apply andb_true_iff in H. destruct H as [H He].
  apply andb_true_iff in H. destruct H as [Hc Hd].
  apply negb_true_iff in He.
  rewrite (lower_slug _ Hc), (sub_disallowed_slug false _ Hc).
  rewrite (collapse_dashes_slug false _ (no_double_dash_weaken false _ Hd)).
  apply strip_by_id; [apply no_double_dash_starts, Hd | exact He].
Qed.

(** ** Every stage's output *)

Lemma sub_disallowed_chars (b : bool) (s : str) :
  forallb slug_char (sub_disallowed b (lower s)) = true.
Proof.
  revert b. induction s as [|c r IH]; simpl; intros b; [reflexivity|].
  destruct (allowed (lower_char c)) eqn:Ha.
  - simpl. rewrite (allowed_lower_slug _ Ha). apply IH.
  - destruct b; [apply IH|]. simpl. apply IH.
Qed.

Lemma collapse_dashes_chars (q : N -> bool) (b : bool) (s : str) :
  forallb q s = true -> forallb q (collapse_dashes b s) = true.
Proof.
  revert b. induction s as [|c r IH]; simpl; intros b H; [reflexivity|].
  apply andb_true_iff in H. destruct H as [Hc Hr].
  destruct (is_dash c); [destruct b|]; simpl; try rewrite Hc; simpl;
    apply IH, Hr.
Qed.

Lemma collapse_dashes_single (b : bool) (s : str) :
  no_double_dash b (collapse_dashes b s) = true.
Proof.
  revert b. induction s as [|c r IH]; simpl; intros b; [reflexivity|].
  destruct (is_dash c) eqn:Hc.
  - destruct b; [apply IH|]. simpl. rewrite Hc. apply IH.
  - simpl. rewrite Hc. apply IH.
Qed.

Lemma lstrip_single (b : bool) (s : str) :
  no_double_dash b s = true ->
  no_double_dash true (lstrip_by is_dash s) = true.
Proof.
  revert b. induction s as [|c r IH]; simpl; intros b H; [reflexivity|].
  destruct (is_dash c) eqn:Hc.
  - apply andb_true_iff in H. apply (IH true), H.
  - simpl. rewrite Hc. exact H.
Qed.

Lemma rstrip_single (b : bool) (s : str) :
  no_double_dash b s = true ->
  no_double_dash b (rstrip_by is_dash s) = true.
Proof.
  revert b. induction s as [|c r IH]; simpl; intros b H; [reflexivity|].
  destruct (is_dash c) eqn:Hc.
  - apply andb_true_iff in H. destruct H as [Hb Hr].
    specialize (IH true Hr). destruct (rstrip_by is_dash r) as [|c' r'].
    + reflexivity.
    + change (no_double_dash b (c :: c' :: r')) with
        (if is_dash c then negb b && no_double_dash true (c' :: r')
         else no_double_dash false (c' :: r')).
      rewrite Hc, Hb. exact IH.
  - specialize (IH false H). destruct (rstrip_by is_dash r) as [|c' r'].
    + simpl. rewrite Hc. reflexivity.
    + change (no_double_dash b (c :: c' :: r')) with
        (if is_dash c then negb b && no_double_dash true (c' :: r')
         else no_double_dash false (c' :: r')).
      rewrite Hc. exact IH.
Qed.

Lemma slugify_text_is_slug (s : str) : is_slug (slugify_text s) = true.
Proof.
  unfold is_slug, slugify_text, strip_by.
  rewrite rstrip_by_ends. rewrite andb_true_r. apply andb_true_iff. split.
  - apply rstrip_by_forallb, lstrip_by_forallb, collapse_dashes_chars,
      sub_disallowed_chars.
  - apply rstrip_single, (lstrip_single false), collapse_dashes_single.
Qed.

Lemma slugify_text_idempotent (s : str) :
  slugify_text (slugify_text s) = slugify_text s.
Proof. apply slugify_text_slug, slugify_text_is_slug. Qed.

End SlugFacts.

(* ================================================================== *)
(** * Dicts and the monad *)

Lemma str_eqb_refl (a : str) : str_eqb a a = true.
Proof. unfold str_eqb. destruct (list_eq_dec N.eq_dec a a); congruence. Qed.

Lemma str_eqb_neq (a b : str) : a <> b -> str_eqb a b = false.
Proof. unfold str_eqb. destruct (list_eq_dec N.eq_dec a b); congruence. Qed.

Lemma str_eqb_eq (a b : str) : str_eqb a b = true -> a = b.
Proof. unfold str_eqb. destruct (list_eq_dec N.eq_dec a b); congruence. Qed.

Lemma dict_get_set_same (d : dict) (k : str) (v : value) :
  dict_get (dict_set d k v) k = Some v.
Proof.
  induction d as [|[k' v'] r IH]; simpl.
  - rewrite str_eqb_refl. reflexivity.
  - destruct (str_eqb k' k) eqn:E; simpl.
    + rewrite str_eqb_refl. reflexivity.
    + rewrite E. exact IH.
Qed.

Lemma dict_get_set_other (d : dict) (k k' : str) (v : value) :
  k' <> k -> dict_get (dict_set d k v) k' = dict_get d k'.
Proof.
  intros N. induction d as [|[k0 v0] r IH]; simpl.
  - rewrite str_eqb_neq by congruence. reflexivity.
  - destruct (str_eqb k0 k) eqn:E; simpl.
    + apply str_eqb_eq in E. subst k0.
      rewrite !(str_eqb_neq k k') by congruence. reflexivity.
    + destruct (str_eqb k0 k'); [reflexivity | exact IH].
Qed.

Lemma bind_ok_l {A B} (t : list event) (a : A) (k : A -> M B) :
  bind (t, Ok a) k = (t ++ fst (k a), snd (k a)).
Proof. unfold bind. destruct (k a); reflexivity. Qed.

Lemma bind_ret_l {A B} (a : A) (k : A -> M B) : bind (ret a) k = k a.
Proof. unfold ret. rewrite bind_ok_l. destruct (k a); reflexivity. Qed.

Lemma bind_raise_l {A B} (t : list event) (e : exn) (k : A -> M B) :
  bind (t, Raise e) k = (t, Raise e).
Proof. reflexivity. Qed.

Lemma bind_ok_inv {A B} (m : M A) (k : A -> M B) (t : list event) (b : B) :
  bind m k = (t, Ok b) ->
  exists t1 a t2, m = (t1, Ok a) /\ k a = (t2, Ok b) /\ t = t1 ++ t2.
Proof.
  destruct m as [t1 [a|e]]; simpl; [|discriminate].
  destruct (k a) as [t2 r] eqn:K. intros H. inversion H; subst.
  exists t1, a, t2. repeat split. exact K.
Qed.

Lemma method_get_dict (d : dict) (k : str) :
  method_get (VDict d) k (VStr []) = ret (field d k).
Proof. reflexivity. Qed.

Lemma method_get_ok_inv (v : value) (k : str) (t : list event) (x : value) :
  method_get v k (VStr []) = (t, Ok x) ->
  exists d, v = VDict d /\ x = field d k /\ t = [].
Proof.
  destruct v; simpl; try discriminate. intros H. inversion H.
  exists d. repeat split.
Qed.

Lemma setitem_ok_inv (v : value) (k : str) (x : value) (t : list event)
    (v' : value) :
  setitem v k x = (t, Ok v') ->
  exists d, v = VDict d /\ v' = VDict (dict_set d k x) /\ t = [].
Proof.
  destruct v; simpl; try discriminate. intros H. inversion H.
  exists d. repeat split.
Qed.

Lemma subscript_ok_inv (v : value) (k : str) (t : list event) (x : value) :
  subscript v k = (t, Ok x) ->
  exists d, v = VDict d /\ dict_get d k = Some x /\ t = [].
Proof.
  destruct v; simpl; try discriminate.
  destruct (dict_get d k) eqn:G; simpl; [|discriminate].
  intros H. inversion H; subst. exists d. repeat split. exact G.
Qed.

Lemma call_ok_inv (ev : value -> event) (f : value -> M value) (v : value)
    (t : list event) (x : value) :
  call ev f v = (t, Ok x) -> exists t', f v = (t', Ok x) /\ t = ev v :: t'.
Proof.
  unfold call, emit. rewrite bind_ok_l. destruct (f v) as [t' r]; simpl.
  intros H. inversion H; subst. exists t'. split; reflexivity.
Qed.

Lemma call_ret (ev : value -> event) (f : value -> M value) (v x : value) :
  f v = ret x -> call ev f v = ([ev v], Ok x).
Proof. intros H. unfold call, emit. rewrite bind_ok_l, H. reflexivity. Qed.

(** ** The helpers are pure and return text *)

Lemma create_slug_ok_inv (v : value) (t : list event) (x : value) :
  create_slug v = (t, Ok x) -> t = [] /\ exists s, x = VStr s.
Proof.
  unfold create_slug. destruct (negb (truthy v)).
  - intros H. inversion H. split; [reflexivity | exists []; reflexivity].
  - destruct v; simpl; try discriminate. intros H. inversion H.
    split; [reflexivity | eexists; reflexivity].
Qed.

Lemma create_slug_pure (v : value) : trace (create_slug v) = [].
Proof.
  unfold create_slug. destruct (negb (truthy v)); [reflexivity|].
  destruct v; reflexivity.
Qed.

Lemma extract_first_author_ok_inv (v : value) (t : list event) (x : value) :
  extract_first_author v = (t, Ok x) -> t = [] /\ exists s, x = VStr s.
Proof.
  unfold extract_first_author. destruct (negb (truthy v)).
  - intros H. inversion H. split; [reflexivity | exists []; reflexivity].
  - destruct v; simpl; try discriminate.
    destruct (split1_head s) as [first [tl [E _]]]. fold comma. rewrite E.
    simpl. intros H. inversion H. split; [reflexivity | eexists; reflexivity].
Qed.

Lemma extract_first_author_pure (v : value) : trace (extract_first_author v) = [].
Proof.
  unfold extract_first_author. destruct (negb (truthy v)); [reflexivity|].
  destruct v; try reflexivity.
  destruct (split1_head s) as [first [tl [E _]]]. fold comma. rewrite E.
  reflexivity.
Qed.

Lemma create_slug_text (v : value) :
  text_or_falsy v = true -> exists s, create_slug v = ret (VStr s).
Proof.
  unfold create_slug. intros H. destruct (negb (truthy v)) eqn:T.
  - exists []. reflexivity.
  - destruct v; simpl in *; try congruence. eexists. reflexivity.
Qed.

Lemma extract_first_author_total (v : value) :
  text_or_falsy v = true -> exists s, extract_first_author v = ret (VStr s).
Proof.
  intros H. destruct v as [| b | z | f | s | l | d].
  5: { destruct (extract_first_author_text s) as [first [_ E]].
       eexists. exact E. }
  all: unfold extract_first_author;
    match goal with
    | |- context [negb (truthy ?x)] => destruct (negb (truthy x)) eqn:T
    end; [exists []; reflexivity | simpl in *; congruence].
Qed.

(* ================================================================== *)
(** * The enrichment loop *)

Ltac py_neq := let H := fresh in intro H; vm_compute in H; discriminate H.

Ltac bind_inv H x :=
  let t1 := fresh "t" in
  let t2 := fresh "t" in
  let Hm := fresh "Hm" in
  let Et := fresh "Et" in
  apply bind_ok_inv in H;
  destruct H as (t1 & x & t2 & Hm & H & Et);
  cbv beta in H.

Lemma field_set_other (d : dict) (k k' : str) (v : value) :
  k' <> k -> field (dict_set d k v) k' = field d k'.
Proof. intros N. unfold field. rewrite dict_get_set_other by exact N. reflexivity. Qed.

Lemma enrich_ok_inv (data : value) (items : list value) :
  forall (vars : locals) (t : list event) (out : list value) (vars' : locals),
    enrich data items vars = (t, Ok (out, vars')) ->
    Forall2 enriched_from items out /\
    match items with
    | [] => vars' = vars
    | _ :: _ =>
        exists tp cp,
          subscript data (py "totalPages") = ret tp /\
          subscript data (py "currentPage") = ret cp /\
          vars' = (Some tp, Some cp)
    end.
Proof.
  induction items as [|article rest IH]; intros vars t out vars' H.
  - simpl in H. inversion H; subst. split; [constructor | reflexivity].
  - simpl in H.
    bind_inv H title. apply method_get_ok_inv in Hm.
    destruct Hm as (dr & -> & -> & ->).
    bind_inv H slug. apply call_ok_inv in Hm. destruct Hm as (ts & Hslug & ->).
    destruct (create_slug_ok_inv _ _ _ Hslug) as [-> _].
    bind_inv H art1. apply setitem_ok_inv in Hm.
    destruct Hm as (d1 & E1 & -> & ->). inversion E1; subst d1; clear E1.
    bind_inv H full_author_name. apply method_get_ok_inv in Hm.
    destruct Hm as (d2 & E2 & -> & ->). inversion E2; subst d2; clear E2.
    rewrite field_set_other in H by py_neq.
    bind_inv H short. apply call_ok_inv in Hm. destruct Hm as (ta & Hshort & ->).
    destruct (extract_first_author_ok_inv _ _ _ Hshort) as [-> _].
    bind_inv H art2. apply setitem_ok_inv in Hm.
    destruct Hm as (d3 & E3 & -> & ->). inversion E3; subst d3; clear E3.
    bind_inv H total_pages. pose proof Hm as Htp.
    apply subscript_ok_inv in Hm. destruct Hm as (dd & -> & Gtp & ->).
    bind_inv H current_page. pose proof Hm as Hcp.
    apply subscript_ok_inv in Hm. destruct Hm as (dd' & Edd & Gcp & ->).
    bind_inv H r. destruct r as [out' vars''].
    apply IH in Hm. destruct Hm as [HF Hv].
    inversion H; subst. simpl. split.
    + constructor; [|exact HF].
      exists dr,
        (dict_set (dict_set dr (py "slug") slug) (py "shortAuthorName") short),
        slug, short.
      repeat split; try assumption.
      * rewrite dict_get_set_other by py_neq. apply dict_get_set_same.
      * apply dict_get_set_same.
      * intros k N1 N2. rewrite !dict_get_set_other by assumption. reflexivity.
    + destruct rest as [|r0 rest'].
      * exists total_pages, current_page. repeat split; assumption.
      * exact Hv.
Qed.

Lemma result_bind {A B} (m : M A) (k : A -> M B) (a : A) :
  result m = Ok a -> result (bind m k) = result (k a).
Proof.
  destruct m as [t r]; simpl. intros ->. simpl. destruct (k a); reflexivity.
Qed.

Lemma result_call (ev : value -> event) (f : value -> M value) (v : value) :
  result (call ev f v) = result (f v).
Proof. unfold call, emit. rewrite bind_ok_l. reflexivity. Qed.

Lemma enrich_wf (data : value) (tp cp : value) (items : list value) :
  subscript data (py "totalPages") = ret tp ->
  subscript data (py "currentPage") = ret cp ->
  forallb wf_record items = true ->
  forall vars, exists r, result (enrich data items vars) = Ok r.
Proof.
  intros Htp Hcp. induction items as [|article rest IH]; intros W vars.
  - eexists. reflexivity.
  - simpl in W. apply andb_true_iff in W. destruct W as [Wa Wr].
    destruct article as [| b | z | f | s | l | d]; try discriminate.
    simpl in Wa. apply andb_true_iff in Wa. destruct Wa as [Wt Wau].
    destruct (create_slug_text _ Wt) as [slug Es].
    destruct (extract_first_author_total _ Wau) as [short Ea].
    destruct (IH Wr (Some tp, Some cp)) as [r Er].
    exists (VDict (dict_set (dict_set d (py "slug") (VStr slug))
                     (py "shortAuthorName") (VStr short)) :: fst r, snd r).
    cbn [enrich].
    rewrite method_get_dict, bind_ret_l.
    rewrite (result_bind _ _ (VStr slug))
      by (rewrite result_call, Es; reflexivity).
    cbn [setitem]. rewrite bind_ret_l.
    rewrite method_get_dict, bind_ret_l.
    rewrite field_set_other by py_neq.
    rewrite (result_bind _ _ (VStr short))
      by (rewrite result_call, Ea; reflexivity).
    cbn [setitem]. rewrite bind_ret_l.
    rewrite Htp, bind_ret_l, Hcp, bind_ret_l.
    rewrite (result_bind _ _ r Er). reflexivity.
Qed.

(* ================================================================== *)
(** * The upstream client *)

Lemma fetch_articles_cases (cfg : Config) (net : upstream) (page : Z)
    (search : option str) :
  fetch_articles cfg net page search =
  match API_BASE_URL cfg with
  | None => ([EvPrint (RequestFailed TypeError)], Ok VNone)
  | Some b =>
      let rq :=
        mk_request (b ++ py "/GetArticles")
          (if truthy (opt_value search)
           then dict_set [(py "page", VInt page)] (py "search") (opt_value search)
           else [(py "page", VInt page)])
          [(py "X-Renderer-Key", API_KEY cfg)] in
      match net rq with
      | NoReply => ([EvGet rq; EvPrint (RequestFailed TransportError)], Ok VNone)
      | Reply c t j =>
          if is_success c then
            match j with
            | Some v => ([EvGet rq], Ok v)
            | None =>
                ([EvGet rq; EvPrint (RequestFailed JSONDecodeError)], Ok VNone)
            end
          else ([EvGet rq; EvPrint (ApiError c t)], Ok VNone)
      end
  end.
Proof.
  unfold fetch_articles. cbv zeta.
  destruct (API_BASE_URL cfg) as [b|]; cbn [add_str]; [|reflexivity].
  rewrite bind_ret_l. unfold client_get.
  match goal with |- context [net ?rq] => destruct (net rq) as [|c t j] end;
    [reflexivity|].
  unfold emit, ret, bind, raise_for_status, try_except.
  cbn [resp_status_code resp_text resp_json].
  destruct (is_success c); [destruct j|]; reflexivity.
Qed.

Lemma fetch_article_by_id_cases (cfg : Config) (net : upstream)
    (article_id : Z) :
  fetch_article_by_id cfg net article_id =
  match API_BASE_URL cfg with
  | None => ([EvPrint (RequestFailedUnexpectedly article_id TypeError)], Ok VNone)
  | Some b =>
      let rq :=
        mk_request (b ++ py "/GetArticleByID") [(py "id", VInt article_id)]
          [(py "X-Renderer-Key", API_KEY cfg)] in
      match net rq with
      | NoReply =>
          ([EvGet rq;
            EvPrint (RequestFailedUnexpectedly article_id TransportError)],
           Ok VNone)
      | Reply c t j =>
          if is_success c then
            match j with
            | Some v => ([EvGet rq], Ok v)
            | None =>
                ([EvGet rq;
                  EvPrint (RequestFailedUnexpectedly article_id JSONDecodeError)],
                 Ok VNone)
            end
          else ([EvGet rq; EvPrint (ApiHttpError c article_id)], Ok VNone)
      end
  end.
Proof.
  unfold fetch_article_by_id. cbv zeta.
  destruct (API_BASE_URL cfg) as [b|]; cbn [add_str]; [|reflexivity].
  rewrite bind_ret_l. unfold client_get.
  match goal with |- context [net ?rq] => destruct (net rq) as [|c t j] end;
    [reflexivity|].
  unfold emit, ret, bind, raise_for_status, try_except.
  cbn [resp_status_code resp_text resp_json].
  destruct (is_success c); [destruct j|]; reflexivity.
Qed.

Lemma fetch_articles_total (cfg : Config) (net : upstream) (page : Z)
    (search : option str) :
  existsb enrichment_event (trace (fetch_articles cfg net page search)) = false
  /\ exists v, result (fetch_articles cfg net page search) = Ok v.
Proof.
  rewrite fetch_articles_cases. cbv zeta.
  destruct (API_BASE_URL cfg) as [b|]; [|split; [|eexists]; reflexivity].
  match goal with |- context [net ?rq] => destruct (net rq) as [|c t j] end;
    [split; [|eexists]; reflexivity|].
  destruct (is_success c); [destruct j|]; (split; [|eexists]; reflexivity).
Qed.

Lemma fetch_article_by_id_total (cfg : Config) (net : upstream)
    (article_id : Z) :
  existsb enrichment_event (trace (fetch_article_by_id cfg net article_id))
  = false
  /\ exists v, result (fetch_article_by_id cfg net article_id) = Ok v.
Proof.
  rewrite fetch_article_by_id_cases. cbv zeta.
  destruct (API_BASE_URL cfg) as [b|]; [|split; [|eexists]; reflexivity].
  match goal with |- context [net ?rq] => destruct (net rq) as [|c t j] end;
    [split; [|eexists]; reflexivity|].
  destruct (is_success c); [destruct j|]; (split; [|eexists]; reflexivity).
Qed.

Lemma is_success_iff (c : Z) : is_success c = true <-> (200 <= c <= 299)%Z.
Proof. unfold is_success. rewrite andb_true_iff, !Z.leb_le. reflexivity. Qed.

(* ================================================================== *)
(** * The list handler *)

Lemma bind_eq {A B} (m : M A) (k : A -> M B) (t t' : list event) (a : A)
    (r : outcome B) :
  m = (t, Ok a) -> k a = (t', r) -> bind m k = (t ++ t', r).
Proof. intros -> K. unfold bind. rewrite K. reflexivity. Qed.

Lemma pair_eta {A} (m : M A) : m = (trace m, result m).
Proof. destruct m; reflexivity. Qed.

Lemma fetched {A} (m : M A) (a : A) : result m = Ok a -> m = (trace m, Ok a).
Proof. destruct m; simpl. intros ->. reflexivity. Qed.

Lemma serve_article_list_unavailable (cfg : Config) (net : upstream)
    (request : Request) (page : Z) (search : option str) (data : value) :
  result (fetch_articles cfg net page search) = Ok data ->
  data = VNone \/ (exists d, data = VDict d /\ truthy (records_of d) = false) ->
  serve_article_list cfg net request page search =
  (trace (fetch_articles cfg net page search), Ok (error_view request)).
Proof.
  intros F H. unfold serve_article_list.
  rewrite <- (app_nil_r (trace (fetch_articles cfg net page search))).
  apply bind_eq with (a := data); [apply fetched, F|].
  destruct H as [-> | (d & -> & T)].
  - reflexivity.
  - cbn [is_none method_get]. rewrite bind_ret_l. fold (records_of d).
    rewrite T. reflexivity.
Qed.

Lemma method_get_none_inv (v : value) (k : str) (t : list event) (x : value) :
  method_get v k VNone = (t, Ok x) ->
  exists d, v = VDict d /\
            x = match dict_get d k with Some y => y | None => VNone end /\
            t = [].
Proof.
  destruct v; simpl; try discriminate. intros H. inversion H.
  exists d. repeat split.
Qed.

Lemma ret_ok_inv {A} (a b : A) (t : list event) :
  ret a = (t, Ok b) -> a = b /\ t = [].
Proof. unfold ret. intros H. split; congruence. Qed.

Lemma local_ok_inv (n : str) (o : option value) (t : list event) (x : value) :
  local n o = (t, Ok x) -> o = Some x /\ t = [].
Proof. destruct o; simpl; intros H; inversion H. split; reflexivity. Qed.

Lemma enriched_from_dict (rec art : value) :
  enriched_from rec art -> exists d, rec = VDict d.
Proof. intros (dr & _ & _ & _ & -> & _). exists dr. reflexivity. Qed.

Lemma iter_enriched (records : value) (items out : list value) (t : list event) :
  truthy records = true ->
  iter records = (t, Ok items) ->
  Forall2 enriched_from items out ->
  records = VList items.
Proof.
  intros T I F. destruct records as [| b | z | f | s | l | d];
    simpl in I; try discriminate; inversion I; subst; clear I.
  - destruct s as [|c r]; [discriminate|]. inversion F; subst.
    match goal with H : enriched_from _ _ |- _ =>
      apply enriched_from_dict in H; destruct H; discriminate end.
  - reflexivity.
  - destruct d as [|[k v] r]; [discriminate|]. inversion F; subst.
    match goal with H : enriched_from _ _ |- _ =>
      apply enriched_from_dict in H; destruct H; discriminate end.
Qed.

Lemma serve_article_list_ok_inv (cfg : Config) (net : upstream)
    (request : Request) (page : Z) (search : option str)
    (data : value) (resp : TemplateResponse) :
  result (fetch_articles cfg net page search) = Ok data ->
  result (serve_article_list cfg net request page search) = Ok resp ->
  status_code resp = 200%Z ->
  exists d records arts tp cp,
    data = VDict d /\
    dict_get d (py "data") = Some (VList records) /\
    records <> [] /\
    dict_get d (py "totalPages") = Some tp /\
    dict_get d (py "currentPage") = Some cp /\
    Forall2 enriched_from records arts /\
    resp = mk_template_response (py "articles_template.html")
             (list_context request search arts cp tp) 200.
Proof.
  intros F H S. unfold serve_article_list in H.
  rewrite (fetched _ _ F) in H. rewrite bind_ok_l in H.
  unfold result in H. cbn [snd] in H.
  match type of H with snd ?m = _ => destruct m as [tm rm] eqn:EM end.
  cbn [snd] in H. subst rm.
  bind_inv EM unavailable. destruct unavailable.
  { apply ret_ok_inv in EM. destruct EM as [<- _].
    cbn [status_code] in S. discriminate S. }
  destruct (is_none data) eqn:Hn; [discriminate Hm|].
  bind_inv Hm records0. apply method_get_none_inv in Hm0.
  destruct Hm0 as (d & -> & -> & ->).
  apply ret_ok_inv in Hm. destruct Hm as [T _]. apply negb_false_iff in T.
  bind_inv EM records. apply subscript_ok_inv in Hm.
  destruct Hm as (d' & Ed & G & ->). inversion Ed; subst d'; clear Ed.
  rewrite G in T.
  bind_inv EM items. rename Hm into Hiter.
  bind_inv EM r. destruct r as [arts vars']. apply enrich_ok_inv in Hm.
  destruct Hm as [HF Hv]. cbn [fst snd] in EM.
  pose proof (iter_enriched _ _ _ _ T Hiter HF) as ->.
  bind_inv EM current_page. apply local_ok_inv in Hm. destruct Hm as [Hc ->].
  bind_inv EM total_pages. apply local_ok_inv in Hm. destruct Hm as [Ht ->].
  apply ret_ok_inv in EM. destruct EM as [<- _].
  destruct items as [|i0 items']; [discriminate T|].
  destruct Hv as (tp & cp & Htp & Hcp & ->). cbn [fst snd] in *.
  inversion Hc; subst. inversion Ht; subst.
  apply subscript_ok_inv in Htp. destruct Htp as (d1 & E1 & Gtp & _).
  apply subscript_ok_inv in Hcp. destruct Hcp as (d2 & E2 & Gcp & _).
  inversion E1; subst d1. inversion E2; subst d2.
  exists d, (i0 :: items'), arts, total_pages, current_page.
  repeat split; try assumption; try reflexivity. discriminate.
Qed.

Lemma subscript_dict (d : dict) (k : str) (x : value) :
  dict_get d k = Some x -> subscript (VDict d) k = ret x.
Proof. intros G. cbn [subscript]. rewrite G. reflexivity. Qed.

Lemma serve_article_list_wf (cfg : Config) (net : upstream)
    (request : Request) (page : Z) (search : option str)
    (d : dict) (records : list value) (tp cp : value) :
  result (fetch_articles cfg net page search) = Ok (VDict d) ->
  dict_get d (py "data") = Some (VList records) ->
  records <> [] ->
  forallb wf_record records = true ->
  dict_get d (py "totalPages") = Some tp ->
  dict_get d (py "currentPage") = Some cp ->
  exists arts,
    Forall2 enriched_from records arts /\
    result (serve_article_list cfg net request page search) =
    Ok (mk_template_response (py "articles_template.html")
          (list_context request search arts cp tp) 200).
Proof.
  intros F G NE W Gtp Gcp.
  pose proof (subscript_dict _ _ _ Gtp) as Htp.
  pose proof (subscript_dict _ _ _ Gcp) as Hcp.
  destruct (enrich_wf _ _ _ records Htp Hcp W (None, None)) as [[arts vars'] Er].
  pose proof (fetched _ _ Er) as EE. apply enrich_ok_inv in EE.
  destruct EE as [HF Hv].
  destruct records as [|r0 rs]; [contradiction|].
  destruct Hv as (tp' & cp' & Htp' & Hcp' & ->).
  rewrite Htp in Htp'. rewrite Hcp in Hcp'.
  apply ret_ok_inv in Htp'. destruct Htp' as [<- _].
  apply ret_ok_inv in Hcp'. destruct Hcp' as [<- _].
  exists arts. split; [exact HF|].
  unfold serve_article_list. rewrite (result_bind _ _ _ F).
  cbn [is_none method_get]. rewrite bind_ret_l, G.
  cbn [truthy negb]. rewrite bind_ret_l.
  rewrite (subscript_dict _ _ _ G), bind_ret_l.
  cbn [iter]. rewrite bind_ret_l.
  rewrite (result_bind _ _ _ Er). reflexivity.
Qed.

(* ================================================================== *)
(** * The detail handler *)

Lemma serve_article_detail_absent (cfg : Config) (net : upstream)
    (request : Request) (article_id : Z) (slug : str) :
  result (fetch_article_by_id cfg net article_id) = Ok VNone ->
  serve_article_detail cfg net request article_id slug =
  (trace (fetch_article_by_id cfg net article_id), Raise TypeError).
Proof.
  intros F. unfold serve_article_detail.
  rewrite <- (app_nil_r (trace (fetch_article_by_id cfg net article_id))).
  apply bind_eq with (a := VNone); [apply fetched, F | reflexivity].
Qed.

Lemma serve_article_detail_ok (cfg : Config) (net : upstream)
    (request : Request) (article_id : Z) (slug : str) (env art : dict) :
  result (fetch_article_by_id cfg net article_id) = Ok (VDict env) ->
  dict_get env (py "D") = Some (VDict art) ->
  text_or_falsy (field art (py "Title")) = true ->
  text_or_falsy (field art (py "Authors")) = true ->
  exists expected short,
    create_slug (field art (py "Title")) = ret (VStr expected) /\
    extract_first_author (field art (py "Authors")) = ret (VStr short) /\
    serve_article_detail cfg net request article_id slug =
    (trace (fetch_article_by_id cfg net article_id)
       ++ [EvCreateSlug (field art (py "Title"));
           EvExtractFirstAuthor (field art (py "Authors"))],
     Ok (mk_template_response (py "article_detail.html")
           (detail_context request (VDict art) (VStr short)) 200)).
Proof.
  intros F G Wt Wa.
  destruct (create_slug_text _ Wt) as [expected Es].
  destruct (extract_first_author_total _ Wa) as [short Ea].
  exists expected, short. split; [exact Es|]. split; [exact Ea|].
  unfold serve_article_detail.
  apply bind_eq with (a := VDict env); [apply fetched, F|].
  rewrite (subscript_dict _ _ _ G), bind_ret_l. cbn [is_none].
  rewrite method_get_dict, bind_ret_l.
  rewrite (call_ret EvCreateSlug _ _ _ Es), bind_ok_l.
  assert ((if str_ne slug (VStr expected) then ret tt else ret tt) = ret tt)
    as -> by (destruct (str_ne slug (VStr expected)); reflexivity).
  rewrite bind_ret_l, method_get_dict, bind_ret_l.
  rewrite (call_ret EvExtractFirstAuthor _ _ _ Ea), bind_ok_l. reflexivity.
Qed.

(* ================================================================== *)
(** * Start-up *)

Lemma startup_without_key (env : environ) :
  truthy (opt_value (environ_get env (py "API_KEY"))) = false ->
  startup env =
  raise (ValueError (py "C_SHARP_API_KEY environment variable not set!")).
Proof. intros H. unfold startup. rewrite H. reflexivity. Qed.

Lemma startup_with_key (env : environ) (k : str) :
  environ_get env (py "API_KEY") = Some k -> k <> [] ->
  startup env = ret (mk_config (environ_get env (py "API_BASE_URL")) k).
Proof.
  intros H N. unfold startup. rewrite H.
  destruct k as [|c r]; [contradiction | reflexivity].
Qed.

(* ================================================================== *)
(** * The properties of the specification *)

Lemma Forall2_enriched_carries (records arts : list value) :
  Forall2 enriched_from records arts -> Forall carries_derived_fields arts.
Proof.
  induction 1 as [|rec art rs ars HE _ IH]; constructor; [|exact IH].
  destruct HE as (dr & da & slug & short & _ & -> & Hs & Ha & Gs & Ga & _).
  destruct (create_slug_ok_inv _ _ _ Hs) as [_ [s ->]].
  destruct (extract_first_author_ok_inv _ _ _ Ha) as [_ [a ->]].
  exists da, s, a. repeat split; assumption.
Qed.

Lemma http_status_ok (m : M TemplateResponse) (r : TemplateResponse) :
  result m = Ok r -> http_status m = status_code r.
Proof. unfold http_status. intros ->. reflexivity. Qed.

(** C1 (the source departs from this claim).  When the upstream fetch of
    the detail endpoint fails, so that [fetch_article_by_id] returns
    [None], the handler subscripts that [None] with ['D'] before it tests
    for absence: the request ends in a [TypeError], which the client sees
    as HTTP 500, and the 404 of the following lines is never reached. *)
Theorem detail_failed_fetch (cfg : Config) (net : upstream)
    (request : Request) (article_id : Z) (slug : str) :
  result (fetch_article_by_id cfg net article_id) = Ok VNone ->
  result (serve_article_detail cfg net request article_id slug)
  = Raise TypeError /\
  http_status (serve_article_detail cfg net request article_id slug) = 500%Z /\
  http_status (serve_article_detail cfg net request article_id slug) <> 404%Z.
Proof.
  intros F. rewrite (serve_article_detail_absent _ _ request _ slug F).
  unfold http_status, result. cbn [snd].
  repeat split. discriminate.
Qed.

Lemma detail_failed_fetch_witness :
  result (fetch_article_by_id Examples.cfg Examples.net_down 42) = Ok VNone /\
  result (serve_article_detail Examples.cfg Examples.net_down Examples.rq 42
            (py "hello-world"))
  = Raise TypeError.
Proof.
  split; [reflexivity|].
  apply (detail_failed_fetch Examples.cfg Examples.net_down Examples.rq 42
           (py "hello-world")).
  reflexivity.
Defined.

(** C2, as the source has it.  After a successful fetch of a detail page
    (the envelope's ['D'] is a record whose [Title] and [Authors] are
    text, null or missing) the handler computes the expected slug from the
    article's [Title]; whether or not the slug of the request path equals
    it, the handler does not redirect: it proceeds and renders the detail
    view with status 200. *)
Theorem detail_slug_mismatch_proceeds (cfg : Config) (net : upstream)
    (request : Request) (article_id : Z) (slug : str) (env art : dict) :
  result (fetch_article_by_id cfg net article_id) = Ok (VDict env) ->
  dict_get env (py "D") = Some (VDict art) ->
  text_or_falsy (field art (py "Title")) = true ->
  text_or_falsy (field art (py "Authors")) = true ->
  exists expected short,
    create_slug (field art (py "Title")) = ret (VStr expected) /\
    In (EvCreateSlug (field art (py "Title")))
       (trace (serve_article_detail cfg net request article_id slug)) /\
    result (serve_article_detail cfg net request article_id slug)
    = Ok (mk_template_response (py "article_detail.html")
            (detail_context request (VDict art) (VStr short)) 200) /\
    is_redirect (serve_article_detail cfg net request article_id slug) = false /\
    http_status (serve_article_detail cfg net request article_id slug) = 200%Z.
Proof.
  intros F G Wt Wa.
  destruct (serve_article_detail_ok cfg net request article_id slug env art
              F G Wt Wa)
    as (expected & short & Es & Ea & E).
  exists expected, short. split; [exact Es|].
  split; [|split; [|split]].
  - rewrite E. apply in_or_app. right. left. reflexivity.
  - rewrite E. reflexivity.
  - rewrite E. reflexivity.
  - rewrite E. reflexivity.
Qed.

Lemma detail_slug_mismatch_proceeds_witness :
  exists expected short,
    create_slug (field [(py "Title", VStr (py "Hello, World!"));
                        (py "Authors", VStr (py "Smith, Jones"))] (py "Title"))
    = ret (VStr expected) /\
    In (EvCreateSlug (field [(py "Title", VStr (py "Hello, World!"));
                             (py "Authors", VStr (py "Smith, Jones"))]
                        (py "Title")))
       (trace (serve_article_detail Examples.cfg Examples.net_detail
                 Examples.rq 42 (py "wrong-slug"))) /\
    result (serve_article_detail Examples.cfg Examples.net_detail
              Examples.rq 42 (py "wrong-slug"))
    = Ok (mk_template_response (py "article_detail.html")
            (detail_context Examples.rq
               (VDict [(py "Title", VStr (py "Hello, World!"));
                       (py "Authors", VStr (py "Smith, Jones"))])
               (VStr short)) 200) /\
    is_redirect (serve_article_detail Examples.cfg Examples.net_detail
                   Examples.rq 42 (py "wrong-slug")) = false /\
    http_status (serve_article_detail Examples.cfg Examples.net_detail
                   Examples.rq 42 (py "wrong-slug")) = 200%Z.
Proof.
  apply (detail_slug_mismatch_proceeds Examples.cfg Examples.net_detail
           Examples.rq 42 (py "wrong-slug")
           [(py "D", Examples.article42)]
           [(py "Title", VStr (py "Hello, World!"));
            (py "Authors", VStr (py "Smith, Jones"))]); reflexivity.
Defined.

(** C2 as stated fails: for article 42 titled "Hello, World!" the
    expected slug is "hello-world"; a request with the slug "wrong-slug"
    is answered with status 200, not with a redirect. *)
Lemma detail_slug_mismatch_no_redirect :
  result (fetch_article_by_id Examples.cfg Examples.net_detail 42)
  = Ok Examples.envelope42 /\
  create_slug (VStr (py "Hello, World!")) = ret (VStr (py "hello-world")) /\
  py "wrong-slug" <> py "hello-world" /\
  is_redirect (serve_article_detail Examples.cfg Examples.net_detail
                 Examples.rq 42 (py "wrong-slug")) = false /\
  http_status (serve_article_detail Examples.cfg Examples.net_detail
                 Examples.rq 42 (py "wrong-slug")) = 200%Z.
Proof.
  repeat split; try reflexivity. py_neq.
Qed.

(** C3.  For every request to the list endpoint: when the upstream result
    is absent ([None]), or it is an object whose record collection
    [data.get("data")] is missing, null or empty (any value that tests
    false), the list handler renders the error view [error.html] with
    HTTP status 500, and neither [create_slug] nor [extract_first_author]
    is called. *)
Theorem list_unavailable_error_view (cfg : Config) (net : upstream)
    (request : Request) (page : Z) (search : option str) (data : value) :
  result (fetch_articles cfg net page search) = Ok data ->
  data = VNone \/ (exists d, data = VDict d /\ truthy (records_of d) = false) ->
  result (serve_article_list cfg net request page search)
  = Ok (error_view request) /\
  http_status (serve_article_list cfg net request page search) = 500%Z /\
  existsb enrichment_event
    (trace (serve_article_list cfg net request page search)) = false.
Proof.
  intros F H.
  rewrite (serve_article_list_unavailable cfg net request page search data F H).
  unfold http_status, result, trace at 1. cbn [fst snd].
  repeat split. apply fetch_articles_total.
Qed.

Lemma list_unavailable_error_view_witness :
  (result (serve_article_list Examples.cfg Examples.net_down Examples.rq 1 None)
   = Ok (error_view Examples.rq) /\
   http_status (serve_article_list Examples.cfg Examples.net_down Examples.rq
                  1 None) = 500%Z /\
   existsb enrichment_event
     (trace (serve_article_list Examples.cfg Examples.net_down Examples.rq
               1 None)) = false) /\
  (result (serve_article_list Examples.cfg Examples.net_empty Examples.rq 1 None)
   = Ok (error_view Examples.rq) /\
   http_status (serve_article_list Examples.cfg Examples.net_empty Examples.rq
                  1 None) = 500%Z /\
   existsb enrichment_event
     (trace (serve_article_list Examples.cfg Examples.net_empty Examples.rq
               1 None)) = false).
Proof.
  split.
  - apply (list_unavailable_error_view Examples.cfg Examples.net_down
             Examples.rq 1 None VNone); [reflexivity | left; reflexivity].
  - apply (list_unavailable_error_view Examples.cfg Examples.net_empty
             Examples.rq 1 None Examples.empty_page); [reflexivity|].
    right. eexists. split; reflexivity.
Defined.

(** C4, as the source has it.  For every successful upstream list
    response with N >= 1 records (an object whose [data] is a list of N
    objects with text, null or missing [title] and [author], and which
    has [totalPages] and [currentPage]) the list handler answers with
    status 200 and the list view; its context holds exactly N records,
    each with a [slug] and a [shortAuthorName] that are strings, the
    upstream [currentPage] and [totalPages], the page size 50 and the
    search term of the request. *)
Theorem list_success (cfg : Config) (net : upstream)
    (request : Request) (page : Z) (search : option str)
    (d : dict) (records : list value) (tp cp : value) :
  result (fetch_articles cfg net page search) = Ok (VDict d) ->
  dict_get d (py "data") = Some (VList records) ->
  (1 <= List.length records)%nat ->
  forallb wf_record records = true ->
  dict_get d (py "totalPages") = Some tp ->
  dict_get d (py "currentPage") = Some cp ->
  exists arts,
    result (serve_article_list cfg net request page search)
    = Ok (mk_template_response (py "articles_template.html")
            [(py "request", CtxRequest request);
             (py "articles", CtxValue (VList arts));
             (py "current_page", CtxValue cp);
             (py "total_pages", CtxValue tp);
             (py "page_size", CtxValue (VInt 50));
             (py "search_term", CtxValue (opt_value search))]
            200) /\
    http_status (serve_article_list cfg net request page search) = 200%Z /\
    List.length arts = List.length records /\
    Forall carries_derived_fields arts.
Proof.
  intros F G N W Gtp Gcp.
  assert (records <> []) as NE by (destruct records; simpl in N; [lia | discriminate]).
  destruct (serve_article_list_wf cfg net request page search d records tp cp
              F G NE W Gtp Gcp) as (arts & HF & E).
  exists arts. split; [exact E|]. split; [|split].
  - rewrite (http_status_ok _ _ E). reflexivity.
  - symmetry. exact (Forall2_length HF).
  - exact (Forall2_enriched_carries _ _ HF).
Qed.

Lemma list_success_witness :
  exists arts,
    result (serve_article_list Examples.cfg Examples.net_list Examples.rq 1
              (Some (py "hello")))
    = Ok (mk_template_response (py "articles_template.html")
            [(py "request", CtxRequest Examples.rq);
             (py "articles", CtxValue (VList arts));
             (py "current_page", CtxValue (VInt 1));
             (py "total_pages", CtxValue (VInt 3));
             (py "page_size", CtxValue (VInt 50));
             (py "search_term", CtxValue (opt_value (Some (py "hello"))))]
            200) /\
    http_status (serve_article_list Examples.cfg Examples.net_list Examples.rq
                   1 (Some (py "hello"))) = 200%Z /\
    List.length arts = List.length [Examples.record7] /\
    Forall carries_derived_fields arts.
Proof.
  apply (list_success Examples.cfg Examples.net_list Examples.rq 1
           (Some (py "hello"))
           [(py "data", VList [Examples.record7]);
            (py "currentPage", VInt 1);
            (py "totalPages", VInt 3)]
           [Examples.record7] (VInt 3) (VInt 1));
    reflexivity.
Defined.

(** C4 as stated fails for N = 0: a successful upstream response whose
    record collection is empty (a search without matches, say) is
    answered with the error view and status 500, not with status 200 and
    no records. *)
Lemma list_empty_page_is_error :
  result (fetch_articles Examples.cfg Examples.net_empty 1 None)
  = Ok (VDict [(py "data", VList []);
               (py "currentPage", VInt 1);
               (py "totalPages", VInt 0)]) /\
  result (serve_article_list Examples.cfg Examples.net_empty Examples.rq 1 None)
  = Ok (error_view Examples.rq) /\
  http_status (serve_article_list Examples.cfg Examples.net_empty Examples.rq
                 1 None) = 500%Z /\
  http_status (serve_article_list Examples.cfg Examples.net_empty Examples.rq
                 1 None) <> 200%Z.
Proof.
  repeat split. discriminate.
Qed.

(** C5.  For every string [s], [extract_first_author] returns the part
    of [s] before its first comma with the surrounding whitespace removed;
    when [s] has no comma it returns all of [s], trimmed; for the empty
    string it returns the empty string.  "Smith, Jones" and "Smith" give
    "Smith", "" gives "", "  Smith , Jones" gives "Smith". *)
Theorem extract_first_author_correct :
  (forall s, exists first r,
      before_first_comma s first /\ trimmed first r /\
      extract_first_author (VStr s) = ret (VStr r)) /\
  (forall s first r,
      before_first_comma s first -> trimmed first r ->
      extract_first_author (VStr s) = ret (VStr r)) /\
  (forall s, ~ In comma s ->
      exists r, trimmed s r /\ extract_first_author (VStr s) = ret (VStr r)) /\
  extract_first_author (VStr []) = ret (VStr []) /\
  extract_first_author (VStr (py "Smith, Jones")) = ret (VStr (py "Smith")) /\
  extract_first_author (VStr (py "Smith")) = ret (VStr (py "Smith")) /\
  extract_first_author (VStr (py "")) = ret (VStr (py "")) /\
  extract_first_author (VStr (py "  Smith , Jones")) = ret (VStr (py "Smith")).
Proof.
  split; [|split; [|split; [|repeat split]]].
  - intros s. destruct (extract_first_author_text s) as [first [B E]].
    exists first, (strip first). repeat split; try assumption.
    + apply B.
    + apply B.
    + apply strip_trimmed.
  - intros s first r B T.
    destruct (extract_first_author_text s) as [first' [B' E]].
    pose proof (before_first_comma_unique s first first' B B') as U.
    subst first'. rewrite E. do 2 f_equal.
    apply (trimmed_unique first); [apply strip_trimmed | exact T].
  - intros s NC. destruct (extract_first_author_text s) as [first [[_ B] E]].
    assert (s = first) as <-.
    { destruct B as [B | [rest B]]; [exact B|].
      exfalso. apply NC. rewrite B. apply in_or_app. right. left. reflexivity. }
    exists (strip s). split; [apply strip_trimmed | exact E].
Qed.

Lemma extract_first_author_correct_witness :
  ~ In comma (py "Smith") /\
  exists r, trimmed (py "Smith") r /\
            extract_first_author (VStr (py "Smith")) = ret (VStr r).
Proof.
  assert (~ In comma (py "Smith")) as NC
    by (intros H; cbv in H; intuition discriminate).
  split; [exact NC|].
  exact (proj1 (proj2 (proj2 extract_first_author_correct)) (py "Smith") NC).
Defined.

Lemma create_slug_of_slug (s : str) :
  Slugify.is_slug s = true -> create_slug (VStr s) = ret (VStr s).
Proof.
  intros H. destruct s as [|c r]; [reflexivity|].
  unfold create_slug. cbn [truthy negb]. unfold Slugify.slugify.
  rewrite (SlugFacts.slugify_text_slug _ H). reflexivity.
Qed.

Lemma create_slug_is_slug (s : str) :
  exists r, create_slug (VStr s) = ret (VStr r) /\ Slugify.is_slug r = true.
Proof.
  destruct s as [|c r].
  - exists []. split; reflexivity.
  - exists (Slugify.slugify_text (c :: r)). split; [reflexivity|].
    apply SlugFacts.slugify_text_is_slug.
Qed.

Example create_slug_docstring :
  create_slug (VStr (py "The C# API & Python Renderer!"))
  = ret (VStr (py "the-c-api-python-renderer")).
Proof. reflexivity. Qed.

Example create_slug_hello_world :
  create_slug (VStr (py "Hello, World!")) = ret (VStr (py "hello-world")).
Proof. reflexivity. Qed.

(** C6.  [create_slug] is a function of its argument alone, and it is
    idempotent: applying it to its own result gives that result again; a
    string that already is a slug is returned unchanged, every result is
    a slug, and the empty (or absent) title gives the empty string. *)
Theorem create_slug_idempotent :
  (forall t, (s <- create_slug t ;; create_slug s) = create_slug t) /\
  (forall s, Slugify.is_slug s = true -> create_slug (VStr s) = ret (VStr s)) /\
  (forall s, exists r,
      create_slug (VStr s) = ret (VStr r) /\ Slugify.is_slug r = true) /\
  create_slug (VStr []) = ret (VStr []) /\
  create_slug VNone = ret (VStr []).
Proof.
  split; [|split; [exact create_slug_of_slug|
                   split; [exact create_slug_is_slug | split; reflexivity]]].
  intros t. destruct (negb (truthy t)) eqn:T.
  - assert (create_slug t = ret (VStr [])) as ->
      by (unfold create_slug; rewrite T; reflexivity).
    rewrite bind_ret_l. reflexivity.
  - destruct t as [| b | z | f | s | l | d];
      try (assert (create_slug _ = raise TypeError) as ->
             by (unfold create_slug; rewrite T; reflexivity);
           reflexivity).
    destruct (create_slug_is_slug s) as [r [E S]].
    rewrite E, bind_ret_l. apply create_slug_of_slug, S.
Qed.

Lemma create_slug_idempotent_witness :
  Slugify.is_slug (py "hello-world") = true /\
  create_slug (VStr (py "hello-world")) = ret (VStr (py "hello-world")).
Proof.
  split; [reflexivity|].
  apply (proj1 (proj2 create_slug_idempotent) (py "hello-world")).
  reflexivity.
Defined.

Ltac close_case :=
  repeat split; intros;
  repeat match goal with
    | H : Reply _ _ _ = Reply _ _ _ |- _ => inversion H; subst; clear H
    end;
  solve [reflexivity | discriminate | contradiction | congruence].

Ltac contract :=
  unfold absent_on_failure;
  let c := fresh "c" in
  let t := fresh "t" in
  let j := fresh "j" in
  let S := fresh "S" in
  match goal with
  | |- context [match ?net ?rq with NoReply => _ | Reply _ _ _ => _ end] =>
      destruct (net rq) as [|c t j]
  end;
  [ close_case
  | destruct (is_success c) eqn:S;
    [ apply is_success_iff in S; destruct j; close_case
    | assert (~ (200 <= c <= 299)%Z)
        by (rewrite <- is_success_iff; congruence);
      close_case ] ].

(** C7.  For both operations of the upstream client, with the base URL
    configured: the one request goes to the operation's endpoint and
    carries the key header; when the upstream does not reply (transport
    failure) or replies with a status outside 200..299 the operation
    returns [None], not an empty list or object; when it replies with a
    status within 200..299 the operation returns the parsed JSON body. *)
Theorem upstream_client_contract (cfg : Config) (net : upstream) (b : str) :
  API_BASE_URL cfg = Some b ->
  (forall page search, exists rq,
      url rq = b ++ py "/GetArticles" /\
      In (py "X-Renderer-Key", API_KEY cfg) (headers rq) /\
      absent_on_failure net (fetch_articles cfg net page search) rq) /\
  (forall article_id, exists rq,
      url rq = b ++ py "/GetArticleByID" /\
      In (py "X-Renderer-Key", API_KEY cfg) (headers rq) /\
      absent_on_failure net (fetch_article_by_id cfg net article_id) rq) /\
  VNone <> VList [] /\ VNone <> VDict [].
Proof.
  intros B. split; [|split; [|split; discriminate]].
  - intros page search. rewrite fetch_articles_cases, B. cbv zeta.
    match goal with
    | |- context [match net ?rq with NoReply => _ | Reply _ _ _ => _ end] =>
        exists rq
    end.
    split; [reflexivity|]. split; [left; reflexivity|]. contract.
  - intros article_id. rewrite fetch_article_by_id_cases, B. cbv zeta.
    match goal with
    | |- context [match net ?rq with NoReply => _ | Reply _ _ _ => _ end] =>
        exists rq
    end.
    split; [reflexivity|]. split; [left; reflexivity|]. contract.
Qed.

Lemma upstream_client_contract_witness :
  (forall page search, exists rq,
      url rq = py "https://api.example" ++ py "/GetArticles" /\
      In (py "X-Renderer-Key", API_KEY Examples.cfg) (headers rq) /\
      absent_on_failure Examples.net_500
        (fetch_articles Examples.cfg Examples.net_500 page search) rq) /\
  (forall article_id, exists rq,
      url rq = py "https://api.example" ++ py "/GetArticleByID" /\
      In (py "X-Renderer-Key", API_KEY Examples.cfg) (headers rq) /\
      absent_on_failure Examples.net_500
        (fetch_article_by_id Examples.cfg Examples.net_500 article_id) rq) /\
  VNone <> VList [] /\ VNone <> VDict [].
Proof.
  apply (upstream_client_contract Examples.cfg Examples.net_500
           (py "https://api.example")).
  reflexivity.
Defined.

(** C8.  When [API_KEY] is missing from the environment, or empty, the
    import of the module raises [ValueError]: no handler is ever run and
    no request is answered.  When it is present and not empty the check
    passes and the requests are handled. *)
Theorem startup_requires_api_key (env : environ) :
  (environ_get env (py "API_KEY") = None \/
   environ_get env (py "API_KEY") = Some [] ->
   startup env
   = raise (ValueError (py "C_SHARP_API_KEY environment variable not set!")) /\
   forall net rqs,
     serve env net rqs
     = raise (ValueError (py "C_SHARP_API_KEY environment variable not set!")))
  /\
  (forall k,
      environ_get env (py "API_KEY") = Some k -> k <> [] ->
      startup env = ret (mk_config (environ_get env (py "API_BASE_URL")) k) /\
      forall net rqs,
        serve env net rqs
        = ret (map (handle (mk_config (environ_get env (py "API_BASE_URL")) k)
                      net) rqs)).
Proof.
  split.
  - intros H.
    assert (truthy (opt_value (environ_get env (py "API_KEY"))) = false) as T
      by (destruct H as [-> | ->]; reflexivity).
    split; [apply startup_without_key, T|].
    intros net rqs. unfold serve. rewrite (startup_without_key _ T).
    reflexivity.
  - intros k H N. split; [apply startup_with_key; assumption|].
    intros net rqs. unfold serve. rewrite (startup_with_key _ _ H N).
    rewrite bind_ret_l. reflexivity.
Qed.

Lemma startup_requires_api_key_witness :
  (startup Examples.env_no_key
   = raise (ValueError (py "C_SHARP_API_KEY environment variable not set!")) /\
   forall net rqs,
     serve Examples.env_no_key net rqs
     = raise (ValueError (py "C_SHARP_API_KEY environment variable not set!")))
  /\
  (startup Examples.env_empty_key
   = raise (ValueError (py "C_SHARP_API_KEY environment variable not set!")) /\
   forall net rqs,
     serve Examples.env_empty_key net rqs
     = raise (ValueError (py "C_SHARP_API_KEY environment variable not set!")))
  /\
  (startup Examples.env_ok
   = ret (mk_config (environ_get Examples.env_ok (py "API_BASE_URL"))
            (py "secret")) /\
   forall net rqs,
     serve Examples.env_ok net rqs
     = ret (map (handle (mk_config
                           (environ_get Examples.env_ok (py "API_BASE_URL"))
                           (py "secret")) net) rqs)).
Proof.
  split; [|split].
  - apply (proj1 (startup_requires_api_key Examples.env_no_key)).
    left. reflexivity.
  - apply (proj1 (startup_requires_api_key Examples.env_empty_key)).
    right. reflexivity.
  - apply (proj2 (startup_requires_api_key Examples.env_ok) (py "secret")).
    + reflexivity.
    + py_neq.
Defined.

(** C9.  Enrichment changes nothing but the two derived fields.  Whenever
    the list handler answers with the list view, the upstream body is an
    object with a list of records; the records of the context are those
    records, in order, each with [slug] set to [create_slug] of its
    [title] and [shortAuthorName] set to [extract_first_author] of its
    [author] (both helpers without any effect of their own) and with
    every other key reading as it did upstream; [totalPages] and
    [currentPage] of the context are the upstream values. *)
Theorem enrichment_frame (cfg : Config) (net : upstream)
    (request : Request) (page : Z) (search : option str)
    (data : value) (resp : TemplateResponse) :
  result (fetch_articles cfg net page search) = Ok data ->
  result (serve_article_list cfg net request page search) = Ok resp ->
  status_code resp = 200%Z ->
  exists d records arts tp cp,
    data = VDict d /\
    dict_get d (py "data") = Some (VList records) /\
    dict_get d (py "totalPages") = Some tp /\
    dict_get d (py "currentPage") = Some cp /\
    context resp = list_context request search arts cp tp /\
    Forall2 enriched_from records arts /\
    (forall v, trace (create_slug v) = [] /\ trace (extract_first_author v) = []).
Proof.
  intros F H S.
  destruct (serve_article_list_ok_inv cfg net request page search data resp
              F H S)
    as (d & records & arts & tp & cp & -> & G & _ & Gtp & Gcp & HF & ->).
  exists d, records, arts, tp, cp. repeat split; try assumption.
  - apply create_slug_pure.
  - apply extract_first_author_pure.
Qed.

Lemma enrichment_frame_witness :
  exists d records arts tp cp,
    Examples.one_page = VDict d /\
    dict_get d (py "data") = Some (VList records) /\
    dict_get d (py "totalPages") = Some tp /\
    dict_get d (py "currentPage") = Some cp /\
    context Examples.list_view
    = list_context Examples.rq None arts cp tp /\
    Forall2 enriched_from records arts /\
    (forall v, trace (create_slug v) = [] /\ trace (extract_first_author v) = []).
Proof.
  apply (enrichment_frame Examples.cfg Examples.net_list Examples.rq 1 None
           Examples.one_page Examples.list_view); reflexivity.
Defined.

(** C10.  Start-up checks [API_KEY] only.  With [API_KEY] set and
    [API_BASE_URL] not set the module loads; every call of
    [fetch_articles] and of [fetch_article_by_id] then fails inside its
    [try] on [None + "/..."] with a [TypeError] before any request is
    sent, the generic handler logs it and the call returns [None]; so
    every list request is answered with the error view and status 500. *)
Theorem missing_base_url (env : environ) (k : str) :
  environ_get env (py "API_KEY") = Some k -> k <> [] ->
  environ_get env (py "API_BASE_URL") = None ->
  startup env = ret (mk_config None k) /\
  (forall net rqs,
      serve env net rqs = ret (map (handle (mk_config None k) net) rqs)) /\
  (forall net page search,
      fetch_articles (mk_config None k) net page search
      = ([EvPrint (RequestFailed TypeError)], Ok VNone)) /\
  (forall net article_id,
      fetch_article_by_id (mk_config None k) net article_id
      = ([EvPrint (RequestFailedUnexpectedly article_id TypeError)], Ok VNone)) /\
  (forall net request page search,
      result (serve_article_list (mk_config None k) net request page search)
      = Ok (error_view request) /\
      http_status (serve_article_list (mk_config None k) net request page search)
      = 500%Z).
Proof.
  intros H N B.
  assert (startup env = ret (mk_config None k)) as S
    by (rewrite (startup_with_key _ _ H N), B; reflexivity).
  split; [exact S|]. split; [|split; [|split]].
  - intros net rqs. unfold serve. rewrite S, bind_ret_l. reflexivity.
  - intros net page search. apply fetch_articles_cases.
  - intros net article_id. apply fetch_article_by_id_cases.
  - intros net request page search.
    assert (result (fetch_articles (mk_config None k) net page search)
            = Ok VNone) as F by (rewrite fetch_articles_cases; reflexivity).
    rewrite (serve_article_list_unavailable _ _ request _ _ VNone F
               (or_introl eq_refl)).
    split; reflexivity.
Qed.

Lemma missing_base_url_witness :
  startup Examples.env_no_base = ret (mk_config None (py "secret")) /\
  forall net request page search,
    result (serve_article_list (mk_config None (py "secret")) net request
              page search)
    = Ok (error_view request) /\
    http_status (serve_article_list (mk_config None (py "secret")) net request
                   page search)
    = 500%Z.
Proof.
  assert (py "secret" <> []) as N by py_neq.
  pose proof (missing_base_url Examples.env_no_base (py "secret")
                eq_refl N eq_refl) as W.
  split; [exact (proj1 W) | exact (proj2 (proj2 (proj2 (proj2 W))))].
Defined.

(* ================================================================== *)
(** * Further properties of the helpers *)

Lemma strip_no_new_chars (c : N) (x : str) : In c (strip x) -> In c x.
Proof.
  intros H. destruct (strip_trimmed x) as (l & t & E & _).
  rewrite E. apply in_or_app. right. apply in_or_app. left. exact H.
Qed.

Lemma strip_length (x : str) : (List.length (strip x) <= List.length x)%nat.
Proof.
  destruct (strip_trimmed x) as (l & t & E & _).
  rewrite E at 2. rewrite !length_app. lia.
Qed.

Lemma before_first_comma_length (s first : str) :
  before_first_comma s first -> (List.length first <= List.length s)%nat.
Proof.
  intros [_ [-> | [rest ->]]]; [lia|]. rewrite length_app. lia.
Qed.

Lemma trimmed_self (x : str) : trimmed (strip x) (strip x).
Proof.
  destruct (strip_trimmed x) as (l & t & _ & _ & _ & S & E).
  exists [], []. rewrite app_nil_r. repeat split; assumption.
Qed.

Lemma extract_first_author_fixed (s : str) :
  ~ In comma s -> trimmed s s -> extract_first_author (VStr s) = ret (VStr s).
Proof.
  intros NC T.
  destruct (extract_first_author_text s) as [first [B E]].
  assert (before_first_comma s s) as B' by (split; [exact NC | left; reflexivity]).
  rewrite <- (before_first_comma_unique s s first B' B) in E.
  rewrite E. do 2 f_equal.
  apply (trimmed_unique s); [apply strip_trimmed | exact T].
Qed.

(** X1.  The first author never contains a comma and is no longer than
    the author string; extracting the first author of a first author
    changes nothing, whatever value the function is given. *)
Theorem extract_first_author_idempotent :
  (forall s, exists r,
      extract_first_author (VStr s) = ret (VStr r) /\
      ~ In comma r /\
      (List.length r <= List.length s)%nat /\
      extract_first_author (VStr r) = ret (VStr r)) /\
  (forall v,
      (a <- extract_first_author v ;; extract_first_author a)
      = extract_first_author v).
Proof.
  assert (forall s, exists r,
      extract_first_author (VStr s) = ret (VStr r) /\
      ~ In comma r /\
      (List.length r <= List.length s)%nat /\
      extract_first_author (VStr r) = ret (VStr r)) as Hs.
  { intros s. destruct (extract_first_author_text s) as [first [B E]].
    exists (strip first). split; [exact E|].
    assert (~ In comma (strip first)) as NC
      by (intros I; apply (proj1 B); apply strip_no_new_chars, I).
    split; [exact NC|]. split.
    - pose proof (strip_length first). pose proof (before_first_comma_length s first B).
      lia.
    - apply extract_first_author_fixed; [exact NC | apply trimmed_self]. }
  split; [exact Hs|].
  intros v. destruct (negb (truthy v)) eqn:T.
  - assert (extract_first_author v = ret (VStr [])) as ->
      by (unfold extract_first_author; rewrite T; reflexivity).
    rewrite bind_ret_l. reflexivity.
  - destruct v as [| b | z | f | s | l | d];
      try (assert (extract_first_author _ = raise AttributeError) as ->
             by (unfold extract_first_author; rewrite T; reflexivity);
           reflexivity).
    destruct (Hs s) as (r & E & _ & _ & Er).
    rewrite E, bind_ret_l. exact Er.
Qed.

(** X2.  [extract_first_author] raises exactly when its argument tests
    true and is not text, and then it raises [AttributeError]; for every
    other argument it returns a string (the empty one when the argument
    tests false), so indexing the split never fails. *)
Theorem extract_first_author_errors (v : value) :
  (truthy_non_text v = true ->
   extract_first_author v = raise AttributeError) /\
  (truthy_non_text v = false ->
   exists s, extract_first_author v = ret (VStr s)) /\
  (truthy v = false -> extract_first_author v = ret (VStr [])).
Proof.
  split; [|split].
  - intros H. destruct v as [| b | z | f | s | l | d]; simpl in H;
      try discriminate;
      unfold extract_first_author; cbn [truthy]; rewrite H; reflexivity.
  - intros H. apply extract_first_author_total.
    destruct v as [| b | z | f | s | l | d]; simpl in *; try reflexivity;
      rewrite H; reflexivity.
  - intros H. unfold extract_first_author. rewrite H. reflexivity.
Qed.

Lemma extract_first_author_errors_witness :
  extract_first_author (VList [VStr (py "Smith"); VStr (py "Jones")])
  = raise AttributeError /\
  (exists s, extract_first_author (VStr (py " , Jones")) = ret (VStr s)) /\
  extract_first_author VNone = ret (VStr []).
Proof.
  split; [|split].
  - apply (proj1 (extract_first_author_errors
                    (VList [VStr (py "Smith"); VStr (py "Jones")]))).
    reflexivity.
  - apply (proj1 (proj2 (extract_first_author_errors (VStr (py " , Jones"))))).
    reflexivity.
  - apply (proj2 (proj2 (extract_first_author_errors VNone))). reflexivity.
Defined.

(* ================================================================== *)
(** * Further properties of the upstream client *)

(** X3.  With the base URL configured, each operation sends exactly one
    request.  [fetch_articles] sends it to [/GetArticles] with the key
    header, the query parameter [page] as given (no bound is checked) and
    the parameter [search] only when the search term is a non-empty
    string, and nothing else; an empty search term is the same call as no
    search term.  [fetch_article_by_id] sends it to [/GetArticleByID]
    with the key header and the one query parameter [id]. *)
Theorem outbound_requests (cfg : Config) (net : upstream) (b : str) :
  API_BASE_URL cfg = Some b ->
  (forall page search, exists ps,
      filter is_get (trace (fetch_articles cfg net page search))
      = [EvGet (mk_request (b ++ py "/GetArticles") ps
                  [(py "X-Renderer-Key", API_KEY cfg)])] /\
      dict_get ps (py "page") = Some (VInt page) /\
      dict_get ps (py "search") = sent_search search /\
      (forall k, k <> py "page" -> k <> py "search" -> dict_get ps k = None)) /\
  (forall page,
      fetch_articles cfg net page (Some []) = fetch_articles cfg net page None) /\
  (forall article_id,
      filter is_get (trace (fetch_article_by_id cfg net article_id))
      = [EvGet (mk_request (b ++ py "/GetArticleByID")
                  [(py "id", VInt article_id)]
                  [(py "X-Renderer-Key", API_KEY cfg)])]).
Proof.
  intros B. split; [|split].
  - intros page search. rewrite fetch_articles_cases, B. cbv zeta.
    match goal with
    | |- context [mk_request _ ?ps _] => exists ps
    end.
    split.
    + match goal with |- context [net ?rq] => destruct (net rq) as [|c t j] end;
        [reflexivity|].
      destruct (is_success c); [destruct j|]; reflexivity.
    + destruct search as [[|c s]|]; cbn [opt_value truthy].
      * repeat split. intros k N1 N2. simpl.
        rewrite str_eqb_neq by congruence. reflexivity.
      * repeat split. intros k N1 N2.
        rewrite dict_get_set_other by exact N2. simpl.
        rewrite str_eqb_neq by congruence. reflexivity.
      * repeat split. intros k N1 N2. simpl.
        rewrite str_eqb_neq by congruence. reflexivity.
  - intros page. rewrite !fetch_articles_cases. reflexivity.
  - intros article_id. rewrite fetch_article_by_id_cases, B. cbv zeta.
    match goal with |- context [net ?rq] => destruct (net rq) as [|c t j] end;
      [reflexivity|].
    destruct (is_success c); [destruct j|]; reflexivity.
Qed.

Lemma outbound_requests_witness :
  exists ps,
    filter is_get (trace (fetch_articles Examples.cfg Examples.net_list (-3)
                            (Some (py "coq"))))
    = [EvGet (mk_request (py "https://api.example" ++ py "/GetArticles") ps
                [(py "X-Renderer-Key", API_KEY Examples.cfg)])] /\
    dict_get ps (py "page") = Some (VInt (-3)) /\
    dict_get ps (py "search") = sent_search (Some (py "coq")) /\
    (forall k, k <> py "page" -> k <> py "search" -> dict_get ps k = None).
Proof.
  apply (proj1 (outbound_requests Examples.cfg Examples.net_list
                  (py "https://api.example") eq_refl)).
Defined.

(** X4.  Neither operation of the client ever raises, whatever the
    configuration and whatever the upstream does: it ends with a value
    after at most one request; it prints at most one log line, and when
    it has printed one the value is [None]. *)
Theorem upstream_client_never_raises (cfg : Config) (net : upstream) :
  (forall page search, logged_outcome (fetch_articles cfg net page search)) /\
  (forall article_id, logged_outcome (fetch_article_by_id cfg net article_id)).
Proof.
  split.
  - intros page search. unfold logged_outcome.
    rewrite fetch_articles_cases. cbv zeta.
    destruct (API_BASE_URL cfg) as [b|].
    + match goal with |- context [net ?rq] => destruct (net rq) as [|c t j] end.
      * eexists. split; [reflexivity|]. split; [apply le_n|].
        right. split; reflexivity.
      * destruct (is_success c); [destruct j|];
          (eexists; split; [reflexivity|]; split; [apply le_n|]);
          solve [left; reflexivity | right; split; reflexivity].
    + eexists. split; [reflexivity|]. split; [apply le_0_n|].
      right. split; reflexivity.
  - intros article_id. unfold logged_outcome.
    rewrite fetch_article_by_id_cases. cbv zeta.
    destruct (API_BASE_URL cfg) as [b|].
    + match goal with |- context [net ?rq] => destruct (net rq) as [|c t j] end.
      * eexists. split; [reflexivity|]. split; [apply le_n|].
        right. split; reflexivity.
      * destruct (is_success c); [destruct j|];
          (eexists; split; [reflexivity|]; split; [apply le_n|]);
          solve [left; reflexivity | right; split; reflexivity].
    + eexists. split; [reflexivity|]. split; [apply le_0_n|].
      right. split; reflexivity.
Qed.

(* ================================================================== *)
(** * Traces and exceptions of composed computations *)

Lemma trace_bind {A B} (m : M A) (k : A -> M B) :
  trace (bind m k)
  = trace m ++ match result m with Ok a => trace (k a) | Raise _ => [] end.
Proof.
  destruct m as [t [a|e]]; simpl.
  - destruct (k a); reflexivity.
  - rewrite app_nil_r. reflexivity.
Qed.

Lemma result_bind_cases {A B} (m : M A) (k : A -> M B) :
  result (bind m k)
  = match result m with Ok a => result (k a) | Raise e => Raise e end.
Proof. destruct m as [t [a|e]]; simpl; [destruct (k a)|]; reflexivity. Qed.

Lemma safe_bind {A B} (m : M A) (k : A -> M B) :
  safe m -> (forall a, safe (k a)) -> safe (bind m k).
Proof.
  unfold safe. rewrite result_bind_cases. intros Hm Hk.
  destruct (result m) as [a|e]; [apply Hk | exact Hm].
Qed.

Lemma quiet_bind {A B} (m : M A) (k : A -> M B) :
  quiet m -> (forall a, quiet (k a)) -> quiet (bind m k).
Proof.
  unfold quiet. rewrite trace_bind, forallb_app. intros -> Hk.
  destruct (result m) as [a|e]; [apply Hk | reflexivity].
Qed.

Lemma answers_bind {A} (ok : Z -> bool) (m : M A)
    (k : A -> M TemplateResponse) :
  safe m -> (forall a, answers ok (k a)) -> answers ok (bind m k).
Proof.
  unfold safe, answers. rewrite result_bind_cases. intros Hm Hk.
  destruct (result m) as [a|e]; [apply Hk | exact Hm].
Qed.

Lemma safe_ret {A} (a : A) : safe (ret a).
Proof. exact I. Qed.

Lemma quiet_ret {A} (a : A) : quiet (ret a).
Proof. reflexivity. Qed.

Lemma quiet_raise {A} (e : exn) : quiet (@raise A e).
Proof. reflexivity. Qed.

Lemma safe_method_get (v : value) (k : str) (dflt : value) :
  safe (method_get v k dflt).
Proof. destruct v; exact I || reflexivity. Qed.

Lemma quiet_method_get (v : value) (k : str) (dflt : value) :
  quiet (method_get v k dflt).
Proof. destruct v; reflexivity. Qed.

Lemma safe_subscript (v : value) (k : str) : safe (subscript v k).
Proof.
  destruct v; try reflexivity. unfold safe. simpl.
  destruct (dict_get d k); [exact I | reflexivity].
Qed.

Lemma quiet_subscript (v : value) (k : str) : quiet (subscript v k).
Proof.
  destruct v; try reflexivity. unfold quiet. simpl.
  destruct (dict_get d k); reflexivity.
Qed.

Lemma safe_setitem (v : value) (k : str) (x : value) : safe (setitem v k x).
Proof. destruct v; exact I || reflexivity. Qed.

Lemma quiet_setitem (v : value) (k : str) (x : value) : quiet (setitem v k x).
Proof. destruct v; reflexivity. Qed.

Lemma safe_iter (v : value) : safe (iter v).
Proof. destruct v; exact I || reflexivity. Qed.

Lemma quiet_iter (v : value) : quiet (iter v).
Proof. destruct v; reflexivity. Qed.

Lemma safe_local (n : str) (o : option value) : safe (local n o).
Proof. destruct o; exact I || reflexivity. Qed.

Lemma quiet_local (n : str) (o : option value) : quiet (local n o).
Proof. destruct o; reflexivity. Qed.

Lemma safe_create_slug (v : value) : safe (create_slug v).
Proof.
  unfold create_slug. destruct (negb (truthy v)); [exact I|].
  destruct v; exact I || reflexivity.
Qed.

Lemma safe_extract_first_author (v : value) : safe (extract_first_author v).
Proof.
  destruct v as [| b | z | f | s | l | d].
  5: { destruct (extract_first_author_text s) as [first [_ ->]]. exact I. }
  all: unfold extract_first_author;
    match goal with
    | |- context [negb (truthy ?x)] => destruct (negb (truthy x))
    end; exact I || reflexivity.
Qed.

Lemma safe_call (ev : value -> event) (f : value -> M value) (v : value) :
  safe (f v) -> safe (call ev f v).
Proof. unfold safe. rewrite result_call. auto. Qed.

Lemma quiet_call_create_slug (v : value) : quiet (call EvCreateSlug create_slug v).
Proof.
  unfold quiet, call, emit. rewrite bind_ok_l.
  change (trace (?a, ?b)) with a. cbn [fst].
  fold (trace (create_slug v)). rewrite create_slug_pure. reflexivity.
Qed.

Lemma quiet_call_extract (v : value) :
  quiet (call EvExtractFirstAuthor extract_first_author v).
Proof.
  unfold quiet, call, emit. rewrite bind_ok_l.
  change (trace (?a, ?b)) with a. cbn [fst].
  fold (trace (extract_first_author v)). rewrite extract_first_author_pure.
  reflexivity.
Qed.

Create HintDb walk.
#[local] Hint Resolve safe_ret quiet_ret quiet_raise safe_method_get
  quiet_method_get safe_subscript quiet_subscript safe_setitem quiet_setitem
  safe_iter quiet_iter safe_local quiet_local safe_create_slug
  safe_extract_first_author safe_call quiet_call_create_slug
  quiet_call_extract : walk.

Lemma safe_enrich (data : value) (items : list value) :
  forall vars, safe (enrich data items vars).
Proof.
  induction items as [|article rest IH]; intros vars; cbn [enrich].
  - exact I.
  - repeat (apply safe_bind; [auto with walk | intro]). exact I.
Qed.

Lemma quiet_enrich (data : value) (items : list value) :
  forall vars, quiet (enrich data items vars).
Proof.
  induction items as [|article rest IH]; intros vars; cbn [enrich].
  - reflexivity.
  - repeat (apply quiet_bind; [auto with walk | intro]). reflexivity.
Qed.

Lemma safe_fetch_articles (cfg : Config) (net : upstream) (page : Z)
    (search : option str) : safe (fetch_articles cfg net page search).
Proof.
  unfold safe.
  destruct (proj2 (fetch_articles_total cfg net page search)) as [v ->].
  exact I.
Qed.

Lemma safe_fetch_article_by_id (cfg : Config) (net : upstream)
    (article_id : Z) : safe (fetch_article_by_id cfg net article_id).
Proof.
  unfold safe.
  destruct (proj2 (fetch_article_by_id_total cfg net article_id)) as [v ->].
  exact I.
Qed.

Lemma count_app (p : event -> bool) (a b : list event) :
  count p (a ++ b) = (count p a + count p b)%nat.
Proof. unfold count. rewrite filter_app, length_app. reflexivity. Qed.

Lemma count_enrichment (p : event -> bool) (t : list event) :
  (forall ev, enrichment_event ev = true -> p ev = false) ->
  forallb enrichment_event t = true -> count p t = 0%nat.
Proof.
  intros Hp. unfold count. induction t as [|ev t IH]; simpl; [reflexivity|].
  intros H. apply andb_true_iff in H. destruct H as [He Ht].
  rewrite (Hp ev He). apply IH, Ht.
Qed.

Lemma serve_article_list_tail (cfg : Config) (net : upstream)
    (request : Request) (page : Z) (search : option str) :
  exists t',
    trace (serve_article_list cfg net request page search)
    = trace (fetch_articles cfg net page search) ++ t' /\
    forallb enrichment_event t' = true.
Proof.
  unfold serve_article_list. rewrite trace_bind.
  eexists. split; [reflexivity|].
  destruct (result (fetch_articles cfg net page search)) as [data|e];
    [|reflexivity].
  match goal with |- forallb _ (trace ?m) = true => change (quiet m) end.
  apply quiet_bind.
  - destruct (is_none data); [apply quiet_ret|].
    apply quiet_bind; [auto with walk | intro; apply quiet_ret].
  - intros unavailable. destruct unavailable; [apply quiet_ret|].
    repeat (apply quiet_bind; [auto using quiet_enrich with walk | intro]).
    cbv zeta.
    repeat (apply quiet_bind; [auto with walk | intro]).
    apply quiet_ret.
Qed.

Lemma serve_article_list_answers (cfg : Config) (net : upstream)
    (request : Request) (page : Z) (search : option str) :
  answers (fun c => (c =? 200)%Z || (c =? 500)%Z)
    (serve_article_list cfg net request page search).
Proof.
  unfold serve_article_list.
  apply answers_bind; [apply safe_fetch_articles | intros data].
  apply answers_bind.
  - destruct (is_none data); [apply safe_ret|].
    apply safe_bind; [auto with walk | intro; apply safe_ret].
  - intros unavailable. destruct unavailable; [reflexivity|].
    repeat (apply answers_bind; [auto using safe_enrich with walk | intro]).
    cbv zeta.
    repeat (apply answers_bind; [auto with walk | intro]).
    reflexivity.
Qed.

Lemma http_status_answers (ok : Z -> bool) (m : M TemplateResponse) :
  answers ok m -> ok (http_status m) = true \/ http_status m = 500%Z.
Proof.
  unfold answers, http_status. destruct (result m) as [r|e].
  - intros H. left. exact H.
  - intros H. right. destruct e; try reflexivity. discriminate H.
Qed.

(** X5.  Whatever the upstream returns, the list handler answers with
    status 200 or with status 500: it raises no [HTTPException], it never
    redirects, and an exception that leaves it is a plain server error. *)
Theorem list_status_200_or_500 (cfg : Config) (net : upstream)
    (request : Request) (page : Z) (search : option str) :
  (http_status (serve_article_list cfg net request page search) = 200%Z \/
   http_status (serve_article_list cfg net request page search) = 500%Z) /\
  is_redirect (serve_article_list cfg net request page search) = false /\
  (forall e,
      result (serve_article_list cfg net request page search) = Raise e ->
      is_http_exception e = false).
Proof.
  pose proof (serve_article_list_answers cfg net request page search) as A.
  assert (http_status (serve_article_list cfg net request page search) = 200%Z \/
          http_status (serve_article_list cfg net request page search) = 500%Z)
    as S.
  { destruct (http_status_answers _ _ A) as [H | H]; [|right; exact H].
    apply orb_true_iff in H. destruct H as [H | H]; apply Z.eqb_eq in H; auto. }
  split; [exact S|]. split.
  - unfold is_redirect. destruct S as [-> | ->]; reflexivity.
  - intros e E. unfold answers in A. rewrite E in A. exact A.
Qed.

(* ================================================================== *)
(** * Further properties of the detail handler *)

Lemma pure_eta (m : M value) : trace m = [] -> m = ([], result m).
Proof. destruct m as [t r]. simpl. intros ->. reflexivity. Qed.

(** The detail handler, case by case on what was fetched. *)
Lemma serve_article_detail_cases (cfg : Config) (net : upstream)
    (request : Request) (article_id : Z) (slug : str) :
  serve_article_detail cfg net request article_id slug =
  let t0 := trace (fetch_article_by_id cfg net article_id) in
  match result (fetch_article_by_id cfg net article_id) with
  | Raise e => (t0, Raise e)
  | Ok (VDict env) =>
      match dict_get env (py "D") with
      | None => (t0, Raise (KeyError (py "D")))
      | Some VNone => (t0, Raise not_found)
      | Some (VDict art) =>
          match result (create_slug (field art (py "Title"))) with
          | Raise e => (t0 ++ [EvCreateSlug (field art (py "Title"))], Raise e)
          | Ok _ =>
              match result (extract_first_author (field art (py "Authors"))) with
              | Raise e =>
                  (t0 ++ [EvCreateSlug (field art (py "Title"));
                          EvExtractFirstAuthor (field art (py "Authors"))],
                   Raise e)
              | Ok short =>
                  (t0 ++ [EvCreateSlug (field art (py "Title"));
                          EvExtractFirstAuthor (field art (py "Authors"))],
                   Ok (mk_template_response (py "article_detail.html")
                         (detail_context request (VDict art) short) 200))
              end
          end
      | Some _ => (t0, Raise AttributeError)
      end
  | Ok _ => (t0, Raise TypeError)
  end.
Proof.
  unfold serve_article_detail. cbv zeta.
  destruct (fetch_article_by_id cfg net article_id) as [t0 [data|e]];
    [|reflexivity].
  unfold result, trace. cbn [fst snd]. rewrite bind_ok_l.
  destruct data as [| b | z | f | s | l | env];
    try (cbn; rewrite app_nil_r; reflexivity).
  cbn [subscript]. destruct (dict_get env (py "D")) as [article|];
    [|cbn; rewrite app_nil_r; reflexivity].
  rewrite bind_ret_l.
  destruct article as [| b | z | f | s | l | art];
    try (cbn; rewrite app_nil_r; reflexivity).
  cbn [is_none]. rewrite method_get_dict, bind_ret_l.
  unfold call, emit. rewrite bind_ok_l.
  rewrite (pure_eta (create_slug (field art (py "Title"))))
    by apply create_slug_pure.
  unfold result. cbn [fst snd].
  destruct (snd (create_slug (field art (py "Title")))) as [expected|e];
    [|reflexivity].
  rewrite bind_ok_l.
  assert ((if str_ne slug expected then ret tt else ret tt) = ret tt) as ->
    by (destruct (str_ne slug expected); reflexivity).
  rewrite bind_ret_l, method_get_dict, bind_ret_l, bind_ok_l.
  rewrite (pure_eta (extract_first_author (field art (py "Authors"))))
    by apply extract_first_author_pure.
  unfold result. cbn [fst snd].
  destruct (snd (extract_first_author (field art (py "Authors")))) as [short|e];
    reflexivity.
Qed.

Lemma http_status_raise (t : list event) (e : exn) :
  is_http_exception e = false ->
  http_status (t, Raise e) = 500%Z.
Proof. destruct e; intros H; try reflexivity. discriminate H. Qed.

Lemma create_slug_raises (v : value) (e : exn) :
  result (create_slug v) = Raise e -> is_http_exception e = false.
Proof. intros E. pose proof (safe_create_slug v) as S. unfold safe in S.
  rewrite E in S. exact S. Qed.

Lemma extract_first_author_raises (v : value) (e : exn) :
  result (extract_first_author v) = Raise e -> is_http_exception e = false.
Proof. intros E. pose proof (safe_extract_first_author v) as S. unfold safe in S.
  rewrite E in S. exact S. Qed.

Lemma fetch_article_by_id_ok (cfg : Config) (net : upstream) (article_id : Z) :
  exists v, result (fetch_article_by_id cfg net article_id) = Ok v.
Proof. apply fetch_article_by_id_total. Qed.

Ltac detail_cases :=
  rewrite serve_article_detail_cases; cbv zeta;
  match goal with
  | |- context [result (fetch_article_by_id ?c ?n ?i)] =>
      let v := fresh "v" in
      let F := fresh "F" in
      destruct (fetch_article_by_id_ok c n i) as [v F]; rewrite F
  end.

(** X6.  Whatever the upstream returns and whatever slug is requested,
    the detail handler answers with status 200, 404 or 500, never with a
    redirect; it answers 404 exactly when the fetch returned an envelope
    whose ['D'] is null, and a failed fetch is not among those cases. *)
Theorem detail_status_200_404_500 (cfg : Config) (net : upstream)
    (request : Request) (article_id : Z) (slug : str) :
  (http_status (serve_article_detail cfg net request article_id slug) = 200%Z \/
   http_status (serve_article_detail cfg net request article_id slug) = 404%Z \/
   http_status (serve_article_detail cfg net request article_id slug) = 500%Z) /\
  is_redirect (serve_article_detail cfg net request article_id slug) = false /\
  (http_status (serve_article_detail cfg net request article_id slug) = 404%Z
   <-> exists env,
         result (fetch_article_by_id cfg net article_id) = Ok (VDict env) /\
         dict_get env (py "D") = Some VNone).
Proof.
  unfold is_redirect. detail_cases.
  destruct v as [| b | z | f | s | l | env];
    try (split; [right; right; reflexivity|]; split; [reflexivity|];
         split; [discriminate | intros (env & E & _); discriminate]).
  destruct (dict_get env (py "D")) as [article|] eqn:G.
  2: { split; [right; right; reflexivity|]. split; [reflexivity|].
       split; [discriminate | intros (env' & E & G'); congruence]. }
  destruct article as [| b | z | f | s | l | art];
    try (split; [right; right; reflexivity|]; split; [reflexivity|];
         split; [discriminate | intros (env' & E & G'); congruence]).
  - split; [right; left; reflexivity|]. split; [reflexivity|].
    split; [|reflexivity]. intros _. exists env. split; [reflexivity | exact G].
  - destruct (result (create_slug (field art (py "Title")))) as [x|e] eqn:Es.
    + destruct (result (extract_first_author (field art (py "Authors"))))
        as [short|e] eqn:Ea.
      * split; [left; reflexivity|]. split; [reflexivity|].
        split; [discriminate | intros (env' & E & G'); congruence].
      * pose proof (extract_first_author_raises _ _ Ea) as H.
        rewrite (http_status_raise _ e H).
        split; [right; right; reflexivity|]. split; [reflexivity|].
        split; [discriminate | intros (env' & E & G'); congruence].
    + pose proof (create_slug_raises _ _ Es) as H.
      rewrite (http_status_raise _ e H).
      split; [right; right; reflexivity|]. split; [reflexivity|].
      split; [discriminate | intros (env' & E & G'); congruence].
Qed.

(** X7.  Shapes of the by-id response the detail handler does not
    expect.  An envelope without the key ['D'] ends in [KeyError]; a body
    that is not an object ends in [TypeError]; a ['D'] that is neither
    null nor an object ends in [AttributeError]; each is answered with
    status 500.  An empty object as ['D'] is rendered with status 200 and
    an empty short author. *)
Theorem detail_unexpected_shapes (cfg : Config) (net : upstream)
    (request : Request) (article_id : Z) (slug : str) (v : value) :
  result (fetch_article_by_id cfg net article_id) = Ok v ->
  (is_dict v = false ->
   result (serve_article_detail cfg net request article_id slug)
   = Raise TypeError) /\
  (forall env, v = VDict env -> dict_get env (py "D") = None ->
   result (serve_article_detail cfg net request article_id slug)
   = Raise (KeyError (py "D"))) /\
  (forall env a, v = VDict env -> dict_get env (py "D") = Some a ->
   is_none a = false -> is_dict a = false ->
   result (serve_article_detail cfg net request article_id slug)
   = Raise AttributeError) /\
  (forall env, v = VDict env -> dict_get env (py "D") = Some (VDict []) ->
   result (serve_article_detail cfg net request article_id slug)
   = Ok (mk_template_response (py "article_detail.html")
           (detail_context request (VDict []) (VStr [])) 200)) /\
  (is_dict v = false \/
   (exists env, v = VDict env /\
      (dict_get env (py "D") = None \/
       exists a, dict_get env (py "D") = Some a /\
                 is_none a = false /\ is_dict a = false)) ->
   http_status (serve_article_detail cfg net request article_id slug) = 500%Z).
Proof.
  intros F. rewrite serve_article_detail_cases. cbv zeta. rewrite F.
  split; [|split; [|split; [|split]]].
  - intros H. destruct v; try reflexivity. discriminate H.
  - intros env -> G. rewrite G. reflexivity.
  - intros env a -> G Hn Hd. rewrite G.
    destruct a; try reflexivity; discriminate.
  - intros env -> G. rewrite G. reflexivity.
  - intros [H | (env & -> & [G | (a & G & Hn & Hd)])].
    + destruct v; try reflexivity. discriminate H.
    + rewrite G. reflexivity.
    + rewrite G. destruct a; try reflexivity; discriminate.
Qed.

Lemma detail_unexpected_shapes_witness :
  result (serve_article_detail Examples.cfg
            (fun _ => Reply 200 [] (Some (VDict [(py "data", VNone)])))
            Examples.rq 42 (py "x"))
  = Raise (KeyError (py "D")).
Proof.
  apply (proj1 (proj2 (detail_unexpected_shapes Examples.cfg
           (fun _ => Reply 200 [] (Some (VDict [(py "data", VNone)])))
           Examples.rq 42 (py "x") (VDict [(py "data", VNone)]) eq_refl))
           [(py "data", VNone)]); reflexivity.
Defined.

(* ================================================================== *)
(** * Further properties of the list handler *)

Lemma result_bind_raise {A B} (m : M A) (k : A -> M B) (e : exn) :
  result m = Raise e -> result (bind m k) = Raise e.
Proof. intros E. rewrite result_bind_cases, E. reflexivity. Qed.

(** One turn of the loop on a well-formed record. *)
Lemma enrich_step (data : value) (d : dict) (rest : list value) (vars : locals) :
  wf_record (VDict d) = true ->
  exists slug short,
    create_slug (field d (py "title")) = ret (VStr slug) /\
    extract_first_author (field d (py "author")) = ret (VStr short) /\
    result (enrich data (VDict d :: rest) vars)
    = result
        (total_pages <- subscript data (py "totalPages") ;;
         current_page <- subscript data (py "currentPage") ;;
         r <- enrich data rest (Some total_pages, Some current_page) ;;
         ret (VDict (dict_set (dict_set d (py "slug") (VStr slug))
                       (py "shortAuthorName") (VStr short)) :: fst r,
              snd r)).
Proof.
  intros W. simpl in W. apply andb_true_iff in W. destruct W as [Wt Wa].
  destruct (create_slug_text _ Wt) as [slug Es].
  destruct (extract_first_author_total _ Wa) as [short Ea].
  exists slug, short. split; [exact Es|]. split; [exact Ea|].
  cbn [enrich]. rewrite method_get_dict, bind_ret_l.
  rewrite (result_bind _ _ (VStr slug))
    by (rewrite result_call, Es; reflexivity).
  cbn [setitem]. rewrite bind_ret_l, method_get_dict, bind_ret_l.
  rewrite field_set_other by py_neq.
  rewrite (result_bind _ _ (VStr short))
    by (rewrite result_call, Ea; reflexivity).
  cbn [setitem]. rewrite bind_ret_l. reflexivity.
Qed.




(** The handler up to its loop: an exception of the loop is the
    handler's. *)
Lemma serve_article_list_loop_raises (cfg : Config) (net : upstream)
    (request : Request) (page : Z) (search : option str)
    (d : dict) (records : list value) (e : exn) :
  result (fetch_articles cfg net page search) = Ok (VDict d) ->
  dict_get d (py "data") = Some (VList records) ->
  records <> [] ->
  result (enrich (VDict d) records (None, None)) = Raise e ->
  result (serve_article_list cfg net request page search) = Raise e.
Proof.
  intros F G NE E. destruct records as [|r0 rs]; [contradiction|].
  unfold serve_article_list. rewrite (result_bind _ _ _ F).
  cbn [is_none method_get]. rewrite bind_ret_l, G.
  cbn [truthy negb]. rewrite bind_ret_l.
  rewrite (subscript_dict _ _ _ G), bind_ret_l.
  cbn [iter]. rewrite bind_ret_l.
  apply result_bind_raise, E.
Qed.

(** X8.  Bodies the list handler does not expect.  A body that is
    neither null nor an object (a top-level array, say) ends in
    [AttributeError]; so does a record collection that is a non-empty
    string or object; a record collection that is a number or [true] ends
    in [TypeError].  None of them is answered with the error view. *)
Theorem list_unexpected_body (cfg : Config) (net : upstream)
    (request : Request) (page : Z) (search : option str) (data : value) :
  result (fetch_articles cfg net page search) = Ok data ->
  (is_none data = false -> is_dict data = false ->
   result (serve_article_list cfg net request page search)
   = Raise AttributeError) /\
  (forall d recs,
      data = VDict d -> dict_get d (py "data") = Some recs ->
      truthy recs = true ->
      match recs with
      | VList _ => True
      | VStr _ | VDict _ =>
          result (serve_article_list cfg net request page search)
          = Raise AttributeError
      | _ =>
          result (serve_article_list cfg net request page search)
          = Raise TypeError
      end).
Proof.
  intros F. split.
  - intros Hn Hd. unfold serve_article_list. rewrite (result_bind _ _ _ F).
    destruct data; try discriminate; reflexivity.
  - intros d recs -> G T. unfold serve_article_list.
    rewrite (result_bind _ _ _ F).
    cbn [is_none method_get]. rewrite bind_ret_l, G, T.
    cbn [negb]. rewrite bind_ret_l.
    rewrite (subscript_dict _ _ _ G), bind_ret_l.
    destruct recs as [| b | z | f | s | l | d']; try exact I;
      try discriminate T; try reflexivity.
    + destruct s as [|c s]; [discriminate T | reflexivity].
    + destruct d' as [|[k v] d']; [discriminate T | reflexivity].
Qed.

Lemma list_unexpected_body_witness :
  result (serve_article_list Examples.cfg
            (fun _ => Reply 200 [] (Some (VList [Examples.record7])))
            Examples.rq 1 None)
  = Raise AttributeError.
Proof.
  apply (proj1 (list_unexpected_body Examples.cfg
                  (fun _ => Reply 200 [] (Some (VList [Examples.record7])))
                  Examples.rq 1 None (VList [Examples.record7]) eq_refl));
    reflexivity.
Defined.

(** X9.  A page of well-formed records without [totalPages], or with
    [totalPages] and without [currentPage], is not rendered: the first
    turn of the loop ends in [KeyError] for the missing key. *)
Theorem list_missing_pagination (cfg : Config) (net : upstream)
    (request : Request) (page : Z) (search : option str)
    (d r0 : dict) (rs : list value) :
  result (fetch_articles cfg net page search) = Ok (VDict d) ->
  dict_get d (py "data") = Some (VList (VDict r0 :: rs)) ->
  wf_record (VDict r0) = true ->
  (dict_get d (py "totalPages") = None ->
   result (serve_article_list cfg net request page search)
   = Raise (KeyError (py "totalPages"))) /\
  (forall tp,
      dict_get d (py "totalPages") = Some tp ->
      dict_get d (py "currentPage") = None ->
      result (serve_article_list cfg net request page search)
      = Raise (KeyError (py "currentPage"))).
Proof.
  intros F G W.
  destruct (enrich_step (VDict d) r0 rs (None, None) W)
    as (slug & short & _ & _ & E).
  split.
  - intros N.
    apply (serve_article_list_loop_raises cfg net request page search d
             (VDict r0 :: rs)); try assumption; [discriminate|].
    rewrite E. cbn [subscript]. rewrite N. reflexivity.
  - intros tp T N.
    apply (serve_article_list_loop_raises cfg net request page search d
             (VDict r0 :: rs)); try assumption; [discriminate|].
    rewrite E, (subscript_dict _ _ _ T), bind_ret_l.
    cbn [subscript]. rewrite N. reflexivity.
Qed.

Lemma list_missing_pagination_witness :
  result (serve_article_list Examples.cfg
            (fun _ => Reply 200 []
                        (Some (VDict [(py "data", VList [Examples.record7])])))
            Examples.rq 1 None)
  = Raise (KeyError (py "totalPages")).
Proof.
  apply (proj1 (list_missing_pagination Examples.cfg
           (fun _ => Reply 200 []
                       (Some (VDict [(py "data", VList [Examples.record7])])))
           Examples.rq 1 None
           [(py "data", VList [Examples.record7])]
           [(py "id", VInt 7);
            (py "title", VStr (py "Hello, World!"));
            (py "author", VStr (py "  Smith , Jones"))]
           [] eq_refl eq_refl eq_refl)).
  reflexivity.
Defined.



Lemma enrich_ok_trace (data : value) (items : list value) :
  forall (vars : locals) (t : list event) (r : list value * locals),
    enrich data items vars = (t, Ok r) ->
    t = flat_map enrichment_calls items.
Proof.
  induction items as [|article rest IH]; intros vars t r H.
  - simpl in H. apply ret_ok_inv in H. destruct H as [_ ->]. reflexivity.
  - simpl in H.
    bind_inv H title. apply method_get_ok_inv in Hm.
    destruct Hm as (dr & -> & -> & ->).
    bind_inv H slug. apply call_ok_inv in Hm. destruct Hm as (ts & Hslug & ->).
    destruct (create_slug_ok_inv _ _ _ Hslug) as [-> _].
    bind_inv H art1. apply setitem_ok_inv in Hm.
    destruct Hm as (d1 & E1 & -> & ->). inversion E1; subst d1; clear E1.
    bind_inv H full_author_name. apply method_get_ok_inv in Hm.
    destruct Hm as (d2 & E2 & -> & ->). inversion E2; subst d2; clear E2.
    rewrite field_set_other in H by py_neq.
    bind_inv H short. apply call_ok_inv in Hm. destruct Hm as (ta & Hshort & ->).
    destruct (extract_first_author_ok_inv _ _ _ Hshort) as [-> _].
    bind_inv H art2. apply setitem_ok_inv in Hm.
    destruct Hm as (d3 & E3 & -> & ->). inversion E3; subst d3; clear E3.
    bind_inv H total_pages.
    apply subscript_ok_inv in Hm. destruct Hm as (dd & -> & Gtp & ->).
    bind_inv H current_page.
    apply subscript_ok_inv in Hm. destruct Hm as (dd' & Edd & Gcp & ->).
    bind_inv H r'. apply IH in Hm.
    apply ret_ok_inv in H. destruct H as [_ ->].
    subst. simpl. rewrite app_nil_r. reflexivity.
Qed.

Lemma Forall2_enriched_defaults (records arts : list value) :
  Forall2 enriched_from records arts -> Forall2 defaults_to_empty records arts.
Proof.
  induction 1 as [|rec art rs ars HE _ IH]; constructor; [|exact IH].
  destruct HE as (dr & da & slug & short & -> & -> & Hs & Ha & Gs & Ga & _).
  intros dr' E. inversion E; subst dr'. exists da. split; [reflexivity|]. split.
  - intros T. unfold create_slug in Hs. rewrite T in Hs.
    apply ret_ok_inv in Hs. destruct Hs as [<- _]. exact Gs.
  - intros T. unfold extract_first_author in Ha. rewrite T in Ha.
    apply ret_ok_inv in Ha. destruct Ha as [<- _]. exact Ga.
Qed.

(** X11.  Whenever the list handler answers with the list view, it has
    first fetched and then, for each upstream record in order, called
    [create_slug] on the record's [title] and [extract_first_author] on
    its [author], once each, and caused nothing else. *)
Theorem list_success_trace (cfg : Config) (net : upstream)
    (request : Request) (page : Z) (search : option str)
    (data : value) (resp : TemplateResponse) :
  result (fetch_articles cfg net page search) = Ok data ->
  result (serve_article_list cfg net request page search) = Ok resp ->
  status_code resp = 200%Z ->
  exists d records,
    data = VDict d /\
    dict_get d (py "data") = Some (VList records) /\
    trace (serve_article_list cfg net request page search)
    = trace (fetch_articles cfg net page search)
        ++ flat_map enrichment_calls records.
Proof.
  intros F H S.
  destruct (serve_article_list_ok_inv cfg net request page search data resp
              F H S)
    as (d & records & arts & tp & cp & -> & G & NE & _).
  exists d, records. split; [reflexivity|]. split; [exact G|].
  destruct records as [|r0 rs]; [contradiction|].
  unfold serve_article_list in H |- *.
  rewrite trace_bind, F. f_equal.
  rewrite (result_bind _ _ _ F) in H.
  cbn [is_none method_get] in H |- *. rewrite bind_ret_l, G in H |- *.
  cbn [truthy negb] in H |- *. rewrite bind_ret_l in H |- *.
  rewrite (subscript_dict _ _ _ G), bind_ret_l in H |- *.
  cbn [iter] in H |- *. rewrite bind_ret_l in H |- *.
  rewrite result_bind_cases in H. rewrite trace_bind.
  destruct (result (enrich (VDict d) (r0 :: rs) (None, None))) as [r|e] eqn:ER;
    [|discriminate H].
  rewrite (enrich_ok_trace (VDict d) (r0 :: rs) (None, None)
             (trace (enrich (VDict d) (r0 :: rs) (None, None))) r
             (fetched _ _ ER)).
  rewrite <- app_nil_r. f_equal.
  destruct r as [out [otp ocp]]. cbn [fst snd].
  destruct ocp, otp; reflexivity.
Qed.

Lemma list_success_trace_witness :
  exists d records,
    Examples.one_page = VDict d /\
    dict_get d (py "data") = Some (VList records) /\
    trace (serve_article_list Examples.cfg Examples.net_list Examples.rq 1 None)
    = trace (fetch_articles Examples.cfg Examples.net_list 1 None)
        ++ flat_map enrichment_calls records.
Proof.
  apply (list_success_trace Examples.cfg Examples.net_list Examples.rq 1 None
           Examples.one_page Examples.list_view); reflexivity.
Defined.

(** X12.  Missing, null and empty source fields never fail the list
    view: whenever the handler answers with the list view, a record whose
    [title] tests false has the slug [""], and a record whose [author]
    tests false has the short author name [""]. *)
Theorem list_defaults (cfg : Config) (net : upstream)
    (request : Request) (page : Z) (search : option str)
    (data : value) (resp : TemplateResponse) :
  result (fetch_articles cfg net page search) = Ok data ->
  result (serve_article_list cfg net request page search) = Ok resp ->
  status_code resp = 200%Z ->
  exists d records arts cp tp,
    data = VDict d /\
    dict_get d (py "data") = Some (VList records) /\
    context resp = list_context request search arts cp tp /\
    Forall2 defaults_to_empty records arts.
Proof.
  intros F H S.
  destruct (serve_article_list_ok_inv cfg net request page search data resp
              F H S)
    as (d & records & arts & tp & cp & -> & G & _ & _ & _ & HF & ->).
  exists d, records, arts, cp, tp. repeat split; try assumption.
  apply Forall2_enriched_defaults, HF.
Qed.

Lemma list_defaults_witness :
  exists d records arts cp tp,
    VDict [(py "data", VList [VDict [(py "id", VInt 9); (py "title", VNone)]]);
           (py "totalPages", VInt 1); (py "currentPage", VInt 1)] = VDict d /\
    dict_get d (py "data") = Some (VList records) /\
    context
      (mk_template_response (py "articles_template.html")
         (list_context Examples.rq None
            [VDict [(py "id", VInt 9); (py "title", VNone);
                    (py "slug", VStr []); (py "shortAuthorName", VStr [])]]
            (VInt 1) (VInt 1)) 200)
    = list_context Examples.rq None arts cp tp /\
    Forall2 defaults_to_empty records arts.
Proof.
  apply (list_defaults Examples.cfg
           (fun _ => Reply 200 []
              (Some (VDict
                 [(py "data", VList [VDict [(py "id", VInt 9); (py "title", VNone)]]);
                  (py "totalPages", VInt 1); (py "currentPage", VInt 1)])))
           Examples.rq 1 None); reflexivity.
Defined.

(* ================================================================== *)
(** * One upstream request for one request *)

Lemma fetch_articles_counts (cfg : Config) (net : upstream) (page : Z)
    (search : option str) :
  (count is_get (trace (fetch_articles cfg net page search)) <= 1)%nat /\
  (count is_print (trace (fetch_articles cfg net page search)) <= 1)%nat.
Proof.
  rewrite fetch_articles_cases. cbv zeta.
  destruct (API_BASE_URL cfg) as [b|]; [|split; cbv; lia].
  match goal with |- context [net ?rq] => destruct (net rq) as [|c t j] end;
    [split; cbv; lia|].
  destruct (is_success c); [destruct j|]; split; cbv; lia.
Qed.

Lemma fetch_article_by_id_counts (cfg : Config) (net : upstream)
    (article_id : Z) :
  (count is_get (trace (fetch_article_by_id cfg net article_id)) <= 1)%nat /\
  (count is_print (trace (fetch_article_by_id cfg net article_id)) <= 1)%nat.
Proof.
  rewrite fetch_article_by_id_cases. cbv zeta.
  destruct (API_BASE_URL cfg) as [b|]; [|split; cbv; lia].
  match goal with |- context [net ?rq] => destruct (net rq) as [|c t j] end;
    [split; cbv; lia|].
  destruct (is_success c); [destruct j|]; split; cbv; lia.
Qed.

Lemma serve_article_detail_tail (cfg : Config) (net : upstream)
    (request : Request) (article_id : Z) (slug : str) :
  exists t',
    trace (serve_article_detail cfg net request article_id slug)
    = trace (fetch_article_by_id cfg net article_id) ++ t' /\
    forallb enrichment_event t' = true.
Proof.
  rewrite serve_article_detail_cases. cbv zeta.
  assert (forall (r : outcome TemplateResponse),
             exists t', trace (trace (fetch_article_by_id cfg net article_id), r)
                        = trace (fetch_article_by_id cfg net article_id) ++ t' /\
                        forallb enrichment_event t' = true) as Z0
    by (intros r; exists []; rewrite app_nil_r; split; reflexivity).
  destruct (result (fetch_article_by_id cfg net article_id))
    as [[| b | z | f | s | l | env] | e]; try apply Z0.
  destruct (dict_get env (py "D")) as [[| b | z | f | s | l | art] |];
    try apply Z0.
  destruct (result (create_slug (field art (py "Title")))) as [x|e].
  - destruct (result (extract_first_author (field art (py "Authors"))));
      (eexists; split; [reflexivity|reflexivity]).
  - eexists. split; reflexivity.
Qed.

Lemma tail_counts (p : event -> bool) (t0 t' : list event) :
  (forall ev, enrichment_event ev = true -> p ev = false) ->
  forallb enrichment_event t' = true ->
  count p (t0 ++ t') = count p t0.
Proof.
  intros Hp H. rewrite count_app, (count_enrichment p t' Hp H). lia.
Qed.

Lemma enrichment_not_get (ev : event) :
  enrichment_event ev = true -> is_get ev = false.
Proof. destruct ev; simpl; congruence. Qed.

Lemma enrichment_not_print (ev : event) :
  enrichment_event ev = true -> is_print ev = false.
Proof. destruct ev; simpl; congruence. Qed.

(** X13.  Either handler does all its outbound work in its one call of
    the client, before anything else: the trace of a request is the trace
    of that call followed by calls of the two helpers only.  So one
    request to this service causes at most one request to the upstream
    and at most one log line, in every case: there is no retry. *)
Theorem one_upstream_request (cfg : Config) (net : upstream) :
  (forall request page search, exists t',
      trace (serve_article_list cfg net request page search)
      = trace (fetch_articles cfg net page search) ++ t' /\
      forallb enrichment_event t' = true) /\
  (forall request article_id slug, exists t',
      trace (serve_article_detail cfg net request article_id slug)
      = trace (fetch_article_by_id cfg net article_id) ++ t' /\
      forallb enrichment_event t' = true) /\
  (forall rq,
      (count is_get (trace (handle cfg net rq)) <= 1)%nat /\
      (count is_print (trace (handle cfg net rq)) <= 1)%nat).
Proof.
  split; [|split].
  - intros. apply serve_article_list_tail.
  - intros. apply serve_article_detail_tail.
  - intros [request [page search | article_id slug]]; unfold handle;
      cbn [fst snd].
    + destruct (serve_article_list_tail cfg net request page search)
        as (t' & -> & Q).
      rewrite (tail_counts is_get _ _ enrichment_not_get Q).
      rewrite (tail_counts is_print _ _ enrichment_not_print Q).
      apply fetch_articles_counts.
    + destruct (serve_article_detail_tail cfg net request article_id slug)
        as (t' & -> & Q).
      rewrite (tail_counts is_get _ _ enrichment_not_get Q).
      rewrite (tail_counts is_print _ _ enrichment_not_print Q).
      apply fetch_article_by_id_counts.
Qed.

(* ================================================================== *)
(** * What the two views are made of *)

(** X14.  Whenever the detail handler gives a response at all, the
    fetch returned an envelope whose ['D'] is an object; the response is
    the detail view with status 200, its [article] is that object
    unchanged (no slug is attached to it), and its [short_author] is
    [extract_first_author] of the object's [Authors], the empty string
    when [Authors] is missing, null or empty. *)
Theorem detail_view_contents (cfg : Config) (net : upstream)
    (request : Request) (article_id : Z) (slug : str)
    (resp : TemplateResponse) :
  result (serve_article_detail cfg net request article_id slug) = Ok resp ->
  exists env art short,
    result (fetch_article_by_id cfg net article_id) = Ok (VDict env) /\
    dict_get env (py "D") = Some (VDict art) /\
    extract_first_author (field art (py "Authors")) = ret short /\
    (truthy (field art (py "Authors")) = false -> short = VStr []) /\
    resp = mk_template_response (py "article_detail.html")
             (detail_context request (VDict art) short) 200.
Proof.
  rewrite serve_article_detail_cases. cbv zeta.
  destruct (result (fetch_article_by_id cfg net article_id))
    as [[| b | z | f | s | l | env] | e]; try discriminate.
  destruct (dict_get env (py "D")) as [[| b | z | f | s | l | art] |] eqn:G;
    try discriminate.
  destruct (result (create_slug (field art (py "Title")))) as [x|e];
    [|discriminate].
  destruct (result (extract_first_author (field art (py "Authors"))))
    as [short|e] eqn:Ea; [|discriminate].
  intros H. unfold result in H. cbn [snd] in H. injection H as <-.
  exists env, art, short.
  assert (extract_first_author (field art (py "Authors")) = ret short) as E.
  { rewrite (pure_eta _ (extract_first_author_pure _)), Ea. reflexivity. }
  repeat split; try assumption.
  intros T. unfold extract_first_author in E. rewrite T in E.
  apply ret_ok_inv in E. destruct E as [<- _]. reflexivity.
Qed.

Lemma detail_view_contents_witness :
  exists env art short,
    result (fetch_article_by_id Examples.cfg Examples.net_detail 42)
    = Ok (VDict env) /\
    dict_get env (py "D") = Some (VDict art) /\
    extract_first_author (field art (py "Authors")) = ret short /\
    (truthy (field art (py "Authors")) = false -> short = VStr []) /\
    mk_template_response (py "article_detail.html")
      (detail_context Examples.rq Examples.article42 (VStr (py "Smith"))) 200
    = mk_template_response (py "article_detail.html")
        (detail_context Examples.rq (VDict art) short) 200.
Proof.
  apply (detail_view_contents Examples.cfg Examples.net_detail Examples.rq 42
           (py "hello-world")).
  reflexivity.
Defined.

(** X15.  The error view of the list handler has one cause only.
    Whenever the list handler gives a response with a status other than
    200, the response is the error view and the fetched body was [None]
    or an object whose record collection tests false; a failure while
    processing records is never turned into the error view. *)
Theorem list_error_view_cause (cfg : Config) (net : upstream)
    (request : Request) (page : Z) (search : option str)
    (data : value) (resp : TemplateResponse) :
  result (fetch_articles cfg net page search) = Ok data ->
  result (serve_article_list cfg net request page search) = Ok resp ->
  status_code resp <> 200%Z ->
  resp = error_view request /\
  (data = VNone \/ exists d, data = VDict d /\ truthy (records_of d) = false).
Proof.
  intros F H S. unfold serve_article_list in H.
  rewrite (fetched _ _ F) in H. rewrite bind_ok_l in H.
  unfold result in H. cbn [snd] in H.
  match type of H with snd ?m = _ => destruct m as [tm rm] eqn:EM end.
  cbn [snd] in H. subst rm.
  bind_inv EM unavailable. destruct unavailable.
  - apply ret_ok_inv in EM. destruct EM as [<- _].
    split; [reflexivity|].
    destruct (is_none data) eqn:Hn.
    + left. destruct data; try discriminate. reflexivity.
    + right. bind_inv Hm records0. apply method_get_none_inv in Hm0.
      destruct Hm0 as (d & -> & -> & ->). exists d. split; [reflexivity|].
      apply ret_ok_inv in Hm. destruct Hm as [T _].
      apply negb_true_iff in T. exact T.
  - exfalso. apply S.
    bind_inv EM records. bind_inv EM items. bind_inv EM r.
    cbv zeta in EM.
    bind_inv EM current_page. bind_inv EM total_pages.
    apply ret_ok_inv in EM. destruct EM as [<- _]. reflexivity.
Qed.

Lemma list_error_view_cause_witness :
  error_view Examples.rq = error_view Examples.rq /\
  (Examples.empty_page = VNone \/
   exists d, Examples.empty_page = VDict d /\ truthy (records_of d) = false).
Proof.
  apply (list_error_view_cause Examples.cfg Examples.net_empty Examples.rq 1
           None Examples.empty_page (error_view Examples.rq)).
  - reflexivity.
  - reflexivity.
  - discriminate.
Defined.
